(** * The viva session engine of assigncheck

    A shallow embedding of [backend/app/services/ai_service.py] (the
    question/evaluation client adapter) and of the session handlers of
    [backend/app/api/api_v1/endpoints/viva.py], with the properties the
    specification states about them.

    Conventions of the embedding:
    - Python [int] is [Z]; a number [JNum q] of a JSON value is an [int]
      when [q] is integral and otherwise the [float] nearest to [q] (the
      float that the literal [q] denotes), whose products are rounded to
      the nearest float by [Py.double]; infinities and NaN are not
      modelled;
    - the columns of a row hold rationals, compared with [==]: a [Float]
      column is written with the float nearest to the number assigned; the
      sums and means of the aggregator are the exact sums and means of the
      values stored (the rounding of Python's float addition and division
      is not modelled);
    - what the database does with a value that is not of the column's type
      (a string for a [Float] column, a number beyond the column's range) is
      a parameter of the development, the class [Database];
    - [Optional[T]] is [option T];
    - a Python exception is the [Raise] outcome of the small monad [py];
    - the database is an explicit value of type [DB] threaded through every
      handler: a map of sessions by primary key and the table of responses
      in insertion order;
    - everything a handler obtains from outside the process (the reply of
      the model provider, the clock, a database fault) is an explicit
      argument. *)

From Stdlib Require Import ZArith QArith Qabs String List Lia Bool.
From stdpp Require Import base option gmap list pretty.
Import ListNotations.

Local Open Scope string_scope.
Local Open Scope Z_scope.

(** ** Python values and exceptions *)

Module Py.

(** What [json.loads] can return. A [dict] is kept as its item list. *)
#[local] Unset Elimination Schemes.
Inductive json : Type :=
| JNull
| JBool (b : bool)
| JNum (q : Q)
| JStr (s : string)
| JList (l : list json)
| JDict (kv : list (string * json)).
#[local] Set Elimination Schemes.

Inductive exn : Type :=
| APIError            (* timeout, transport or service error of the provider *)
| JSONDecodeError     (* the reply is not JSON, or has no content *)
| KeyError
| TypeError
| AttributeError
| ZeroDivisionError
| ValidationError.    (* pydantic rejects a field *)

Inductive py (A : Type) : Type :=
| Return (a : A)
| Raise (e : exn).
Arguments Return {A} a.
Arguments Raise {A} e.

Definition bind {A B} (m : py A) (k : A -> py B) : py B :=
  match m with
  | Return a => k a
  | Raise e => Raise e
  end.

(** [try: m  except Exception: h] *)
Definition try_except {A} (m : py A) (h : A) : A :=
  match m with
  | Return a => a
  | Raise _ => h
  end.

Fixpoint assoc (k : string) (kv : list (string * json)) : option json :=
  match kv with
  | [] => None
  | (k', v) :: rest => if String.eqb k k' then Some v else assoc k rest
  end.

(** [d[k]] *)
Definition subscript (d : json) (k : string) : py json :=
  match d with
  | JDict kv =>
      match assoc k kv with
      | Some v => Return v
      | None => Raise KeyError
      end
  | _ => Raise TypeError
  end.

(** [d.get(k, default)]; only a [dict] has the method. Python's [None]
    and JSON's [null] are the same value. *)
Definition get (d : json) (k : string) (default : json) : py json :=
  match d with
  | JDict kv =>
      match assoc k kv with
      | Some v => Return v
      | None => Return default
      end
  | _ => Raise AttributeError
  end.

Fixpoint repeat_string (n : nat) (s : string) : string :=
  match n with
  | O => EmptyString
  | S n' => s ++ repeat_string n' s
  end.

Fixpoint repeat_list {A} (n : nat) (l : list A) : list A :=
  match n with
  | O => []
  | S n' => l ++ repeat_list n' l
  end.

(** *** Numbers

    A number [JNum q] of a decoded reply is a Python [int] when [q] is
    integral and otherwise the [float] nearest to [q]. A [float] has 53
    bits of mantissa and a unit between [2^-1074] and [2^971]: [double q]
    is the float nearest to [q], a tie going to the even mantissa, for [q]
    below the threshold [2^1024 - 2^970] from which the nearest float is
    an infinity ([finite]). *)
Definition integral (q : Q) : bool := Qnum q mod Zpos (Qden q) =? 0.

(** [n / d] rounded to the nearest integer, a tie to the even one. *)
Definition round_half_even (n d : Z) : Z :=
  let q := n / d in
  let r := n mod d in
  if 2 * r <? d then q
  else if d <? 2 * r then q + 1
  else if Z.even q then q else q + 1.

(** [n / d] in units of [2^e], as a fraction. *)
Definition scaled (n d e : Z) : Z * Z :=
  if 0 <=? e then (n, d * 2 ^ e) else (n * 2 ^ (- e), d).

Definition double (q : Q) : Q :=
  let n := Z.abs (Qnum q) in
  let d := Zpos (Qden q) in
  if n =? 0 then 0%Q
  else
    (* the unit [2^e] for which the mantissa has 53 bits, not below the
       unit of the subnormal floats *)
    let e0 := Z.log2 n - Z.log2 d - 52 in
    let '(a, b) := scaled n d e0 in
    let e := Z.max (if a / b <? 2 ^ 52 then e0 - 1 else e0) (-1074) in
    let '(a, b) := scaled n d e in
    Qred (inject_Z (Z.sgn (Qnum q) * round_half_even a b) * 2 ^ e)%Q.

Definition finite (q : Q) : bool :=
  negb (Qle_bool (inject_Z (2 ^ 1024 - 2 ^ 970)) (Qabs q)).

(** The Python number that a literal of value [q] is read as: itself when
    integral, the nearest float otherwise. It is [q] for every number
    [json.loads] returns. *)
Definition number (q : Q) : Q := if integral q then q else double q.

(** [v * 10]. The product of an [int] is exact; the product of a [float]
    is the float nearest to the exact product (a [float] that is not
    integral is below [2^52], so this product is finite). *)
Definition times10 (v : json) : py json :=
  match v with
  | JNum q =>
      let x := number q in
      Return (JNum (if integral x then x * 10 else double (x * 10))%Q)
  | JBool b => Return (JNum (if b then 10 else 0)%Q)
  | JStr s => Return (JStr (repeat_string 10 s))
  | JList l => Return (JList (repeat_list 10 l))
  | JNull | JDict _ => Raise TypeError
  end.

End Py.

Import Py.

Arguments integral : simpl never.
Arguments double : simpl never.
Arguments finite : simpl never.
Arguments number : simpl never.

(** [py] is a monad; its bind is written [x ← m; k]. *)
#[global] Instance py_ret : MRet py := @Return.
#[global] Instance py_bind : MBind py := fun A B k m => Py.bind m k.

(** ** The client adapter: [AIService] *)

Module AIService.

(** What one call [openai.ChatCompletion.create(...)] followed by
    [json.loads(response.choices[0].message.content)] produces. The
    prompts only influence this reply, so the request itself is not an
    argument of the model. *)
Inductive upstream : Type :=
| Failed (e : exn)
| Parsed (v : json).

Definition loads (u : upstream) : py json :=
  match u with
  | Failed e => Raise e
  | Parsed v => Return v
  end.

(** [schemas.viva.AIQuestionResponse] *)
Record AIQuestionResponse : Type := {
  question : string;
  expected_keywords : list string;
  follow_up_questions : list string;
  scoring_criteria : list (string * json)
}.

(** pydantic's checks of the four fields: [str], [List[str]], [dict]. *)
Definition validate_str (v : json) : py string :=
  match v with
  | JStr s => Return s
  | _ => Raise ValidationError
  end.

Fixpoint validate_strs (l : list json) : py (list string) :=
  match l with
  | [] => Return []
  | v :: rest =>
      s ← validate_str v;
      ss ← validate_strs rest;
      Return (s :: ss)
  end.

Definition validate_str_list (v : json) : py (list string) :=
  match v with
  | JList l => validate_strs l
  | _ => Raise ValidationError
  end.

Definition validate_dict (v : json) : py (list (string * json)) :=
  match v with
  | JDict kv => Return kv
  | _ => Raise ValidationError
  end.

Definition fallback_question : AIQuestionResponse := {|
  question :=
    "Can you explain the main concepts from your assignment in your own words?";
  expected_keywords := ["concept"; "understanding"; "explanation"];
  follow_up_questions :=
    ["Can you provide an example?"; "How would you apply this?"];
  scoring_criteria :=
    [("excellent", JStr "Clear explanation with examples and applications");
     ("good", JStr "Good understanding with minor gaps");
     ("satisfactory", JStr "Basic understanding demonstrated");
     ("needs_improvement", JStr "Limited understanding shown")]
|}.

(** The body of the [try] of [generate_viva_question]. *)
Definition parse_question (u : upstream) : py AIQuestionResponse :=
  question_data ← loads u;
  q ← subscript question_data "question";
  kw ← subscript question_data "expected_keywords";
  fu ← subscript question_data "follow_up_questions";
  sc ← subscript question_data "scoring_criteria";
  q' ← validate_str q;
  kw' ← validate_str_list kw;
  fu' ← validate_str_list fu;
  sc' ← validate_dict sc;
  Return {| question := q'; expected_keywords := kw';
            follow_up_questions := fu'; scoring_criteria := sc' |}.

Definition generate_viva_question (u : upstream) : AIQuestionResponse :=
  try_except (parse_question u) fallback_question.

Definition fallback_evaluation : json :=
  JDict
    [("accuracy_score", JNum 0.7%Q);
     ("completeness_score", JNum 0.7%Q);
     ("confidence_score", JNum 0.7%Q);
     ("keywords_matched", JList []);
     ("overall_score", JNum 0.7%Q);
     ("feedback",
      JStr "Response received and recorded. Manual review recommended.");
     ("strengths", JList [JStr "Attempted to answer the question"]);
     ("areas_for_improvement", JList [JStr "Could provide more detail"])].

(** [evaluate_viva_response] returns the decoded reply as it is. *)
Definition evaluate_viva_response (u : upstream) : json :=
  try_except (loads u) fallback_evaluation.

End AIService.

Import AIService.

(** ** The persistent records *)

(** Modelled from the spec: [models/viva_session.py] and [models/user.py]
    are not among the sources. Section 4.1 gives the three lifecycle states
    and section 3 the two session kinds; the handlers and the schemas of
    [schemas/viva.py] give the columns and their types. The columns
    [ai_summary], [ai_recommendations], [keywords_matched], [is_follow_up]
    and [created_at], which no handler below writes, are left out. *)
Inductive VivaSessionStatus : Type := SCHEDULED | IN_PROGRESS | COMPLETED.

Inductive VivaSessionType : Type := MOCK | FINAL.

(** The roles: [endpoints/users.py] serves, next to students and teachers,
    a role that is neither (its administrators). *)
Inductive UserRole : Type := STUDENT | TEACHER | ADMIN.

#[global] Instance VivaSessionStatus_eq_dec : EqDecision VivaSessionStatus.
Proof. solve_decision. Defined.

#[global] Instance UserRole_eq_dec : EqDecision UserRole.
Proof. solve_decision. Defined.

(** Modelled from the spec: the row of [models/user.py], with the two
    attributes the handlers read. *)
Record User : Type := { user_id : Z; role : UserRole }.

(** Modelled from the spec: the row of [models/submission.py], with the
    two attributes [create_viva_session] reads. *)
Record Submission : Type := {
  submission_student_id : Z;
  submission_status : string     (* [submission.status.value] *)
}.

(** Modelled from the spec: the session of section 3, with the columns of
    [schemas.viva.VivaSessionResponse]; the primary key is the key of the
    row in [sessions]. Timestamps are clock readings. *)
Record VivaSession : Type := {
  submission_id : Z;
  student_id : Z;
  session_type : VivaSessionType;
  status : VivaSessionStatus;
  video_file_path : option string;
  audio_file_path : option string;
  transcript_file_path : option string;
  duration_seconds : option Z;
  questions_asked : Z;
  questions_answered : Z;
  overall_confidence_score : option Q;
  communication_score : option Q;
  technical_accuracy_score : option Q;
  total_score : option Q;
  max_possible_score : option Q;
  started_at : option Z;
  completed_at : option Z
}.

(** Modelled from the spec: the turn of section 3, with the columns of
    [schemas.viva.VivaResponseResponse]. *)
Record VivaResponse : Type := {
  response_id : Z;
  viva_session_id : Z;
  question_text : string;
  order_index : Z;
  response_text : option string;
  response_audio_path : option string;
  response_timestamp : option Q;
  response_duration : option Q;
  confidence_score : option Q;
  accuracy_score : option Q;
  completeness_score : option Q;
  ai_feedback : option string;
  score : option Q;
  max_score : option Q
}.

(** Attribute assignments [session.f = v]. *)
Module Set_.

Definition status (v : VivaSessionStatus) (s : VivaSession) : VivaSession :=
  let 'Build_VivaSession a b c _ e f g h i j k l m n o p q := s in
  Build_VivaSession a b c v e f g h i j k l m n o p q.

Definition video_file_path (v : option string) (s : VivaSession) :=
  let 'Build_VivaSession a b c d _ f g h i j k l m n o p q := s in
  Build_VivaSession a b c d v f g h i j k l m n o p q.

Definition audio_file_path (v : option string) (s : VivaSession) :=
  let 'Build_VivaSession a b c d e _ g h i j k l m n o p q := s in
  Build_VivaSession a b c d e v g h i j k l m n o p q.

Definition transcript_file_path (v : option string) (s : VivaSession) :=
  let 'Build_VivaSession a b c d e f _ h i j k l m n o p q := s in
  Build_VivaSession a b c d e f v h i j k l m n o p q.

Definition duration_seconds (v : option Z) (s : VivaSession) :=
  let 'Build_VivaSession a b c d e f g _ i j k l m n o p q := s in
  Build_VivaSession a b c d e f g v i j k l m n o p q.

Definition questions_asked (v : Z) (s : VivaSession) :=
  let 'Build_VivaSession a b c d e f g h _ j k l m n o p q := s in
  Build_VivaSession a b c d e f g h v j k l m n o p q.

Definition questions_answered (v : Z) (s : VivaSession) :=
  let 'Build_VivaSession a b c d e f g h i _ k l m n o p q := s in
  Build_VivaSession a b c d e f g h i v k l m n o p q.

Definition overall_confidence_score (v : option Q) (s : VivaSession) :=
  let 'Build_VivaSession a b c d e f g h i j _ l m n o p q := s in
  Build_VivaSession a b c d e f g h i j v l m n o p q.

Definition communication_score (v : option Q) (s : VivaSession) :=
  let 'Build_VivaSession a b c d e f g h i j k _ m n o p q := s in
  Build_VivaSession a b c d e f g h i j k v m n o p q.

Definition technical_accuracy_score (v : option Q) (s : VivaSession) :=
  let 'Build_VivaSession a b c d e f g h i j k l _ n o p q := s in
  Build_VivaSession a b c d e f g h i j k l v n o p q.

Definition total_score (v : option Q) (s : VivaSession) :=
  let 'Build_VivaSession a b c d e f g h i j k l m _ o p q := s in
  Build_VivaSession a b c d e f g h i j k l m v o p q.

Definition max_possible_score (v : option Q) (s : VivaSession) :=
  let 'Build_VivaSession a b c d e f g h i j k l m n _ p q := s in
  Build_VivaSession a b c d e f g h i j k l m n v p q.

Definition started_at (v : option Z) (s : VivaSession) :=
  let 'Build_VivaSession a b c d e f g h i j k l m n o _ q := s in
  Build_VivaSession a b c d e f g h i j k l m n o v q.

Definition completed_at (v : option Z) (s : VivaSession) :=
  let 'Build_VivaSession a b c d e f g h i j k l m n o p _ := s in
  Build_VivaSession a b c d e f g h i j k l m n o p v.

End Set_.

(** The database: the two tables of the engine, the sequence that numbers
    new sessions, and the submissions [create_viva_session] reads. *)
Record DB : Type := {
  sessions : gmap Z VivaSession;
  session_seq : Z;
  responses : list VivaResponse;
  submissions : gmap Z Submission
}.

Definition with_sessions (m : gmap Z VivaSession) (db : DB) : DB :=
  {| sessions := m; session_seq := session_seq db;
     responses := responses db; submissions := submissions db |}.

(** [db.add(VivaSession(...))]: the columns not given take their defaults,
    which [schemas.viva.VivaSessionResponse] shows: counters 0, the rest
    unset. *)
Definition new_session (submission student : Z) (kind : VivaSessionType)
  : VivaSession := {|
  submission_id := submission; student_id := student; session_type := kind;
  status := SCHEDULED;
  video_file_path := None; audio_file_path := None;
  transcript_file_path := None; duration_seconds := None;
  questions_asked := 0; questions_answered := 0;
  overall_confidence_score := None; communication_score := None;
  technical_accuracy_score := None;
  total_score := None; max_possible_score := None;
  started_at := None; completed_at := None
|}.

(** [VivaResponse(viva_session_id=..., question_text=..., order_index=...)];
    the primary key is the next row number of the table. *)
Definition new_response (db : DB) (sid : Z) (text : string) (idx : Z)
  : VivaResponse := {|
  response_id := Z.of_nat (length (responses db)) + 1;
  viva_session_id := sid; question_text := text; order_index := idx;
  response_text := None; response_audio_path := None;
  response_timestamp := None; response_duration := None;
  confidence_score := None; accuracy_score := None;
  completeness_score := None; ai_feedback := None;
  score := None; max_score := None
|}.

(** [session.responses]: the rows of the session, in table order. *)
Definition session_responses (sid : Z) (db : DB) : list VivaResponse :=
  List.filter (fun r => viva_session_id r =? sid) (responses db).

(** ** Requests and replies *)

(** [schemas.viva.VivaResponseCreate] *)
Record VivaResponseCreate : Type := {
  c_question_text : string;
  c_response_text : option string;
  c_response_audio_path : option string;
  c_question_timestamp : option Q;
  c_response_timestamp : option Q;
  c_response_duration : option Q
}.

(** [schemas.viva.VivaSessionUpdate] after [dict(exclude_unset=True)]:
    [None] is a field the request leaves out, [Some None] a path or a
    duration the request sends as [null]. (A status sent as [null] would be
    written to a column whose declaration is not among the sources: the
    model has no such request.) *)
Record VivaSessionUpdate : Type := {
  u_status : option VivaSessionStatus;
  u_video_file_path : option (option string);
  u_audio_file_path : option (option string);
  u_transcript_file_path : option (option string);
  u_duration_seconds : option (option Z)
}.

Inductive HTTPException : Type :=
| HTTP_400_BAD_REQUEST (detail : string)
| HTTP_403_FORBIDDEN (detail : string)
| HTTP_404_NOT_FOUND (detail : string)
| HTTP_500_INTERNAL_SERVER_ERROR (detail : string).

Inductive http (A : Type) : Type :=
| Ok (a : A)
| Err (e : HTTPException).
Arguments Ok {A} a.
Arguments Err {A} e.

(** The body of a successful start. *)
Record StartReply : Type := {
  first_question : string;
  start_response_id : Z
}.

(** The two bodies of a successful respond: [session_complete] is [False]
    in the first and [True] in the second. *)
Inductive RespondReply : Type :=
| NextQuestion (next_question : string) (next_response_id : Z)
| SessionComplete (total max_possible : Q).

(** What a request meets outside the process. [fault] stands for an
    exception raised inside the handler's [try] block by something else
    than the adapter (the adapter itself never raises, see
    [generate_viva_question]). *)
Record Env : Type := {
  now : Z;
  generation : upstream;
  evaluation : upstream;
  fault : bool
}.

(** ** Scoring aggregator (the end of [submit_viva_response]) *)

Module Aggregator.

(** Truth value of an [Optional[float]]. *)
Definition truthy (x : option Q) : bool :=
  match x with
  | Some q => negb (Qeq_bool q 0)
  | None => false
  end.

(** [x or 0] *)
Definition or0 (x : option Q) : Q :=
  match x with
  | Some q => if Qeq_bool q 0 then 0%Q else q
  | None => 0%Q
  end.

(** The builtin [sum]. *)
Definition sum (l : list Q) : Q := fold_left Qplus l 0%Q.

(** [sum(r.f or 0 for r in rs if r.f)] *)
Definition sum_if (f : VivaResponse -> option Q) (rs : list VivaResponse) : Q :=
  sum (map (fun r => or0 (f r)) (List.filter (fun r => truthy (f r)) rs)).

(** [a / n] with [n] an [int] *)
Definition truediv (a : Q) (n : Z) : py Q :=
  if n =? 0 then Raise ZeroDivisionError else Return (a / inject_Z n)%Q.

(** [sum(r.f or 0 for r in rs) / len(rs)] *)
Definition mean (f : VivaResponse -> option Q) (rs : list VivaResponse) : py Q :=
  truediv (sum (map (fun r => or0 (f r)) rs)) (Z.of_nat (length rs)).

Definition is_empty {A} (l : list A) : bool :=
  match l with [] => true | _ => false end.

Definition aggregate (rs : list VivaResponse) (session : VivaSession)
  : py VivaSession :=
  let total := sum_if score rs in
  let max_possible := sum_if max_score rs in
  let session := Set_.total_score (Some total) session in
  let session := Set_.max_possible_score (Some max_possible) session in
  if is_empty rs then Return session
  else
    confidence ← mean confidence_score rs;
    let session := Set_.overall_confidence_score (Some confidence) session in
    communication ← mean confidence_score rs;
    let session := Set_.communication_score (Some communication) session in
    accuracy ← mean accuracy_score rs;
    Return (Set_.technical_accuracy_score (Some accuracy) session).

End Aggregator.

(** ** Recording an answer and its evaluation *)

Definition record_answer (d : VivaResponseCreate) (r : VivaResponse)
  : VivaResponse := {|
  response_id := response_id r;
  viva_session_id := viva_session_id r;
  question_text := question_text r;
  order_index := order_index r;
  response_text := c_response_text d;
  response_audio_path := c_response_audio_path d;
  response_timestamp := c_response_timestamp d;
  response_duration := c_response_duration d;
  confidence_score := confidence_score r;
  accuracy_score := accuracy_score r;
  completeness_score := completeness_score r;
  ai_feedback := ai_feedback r;
  score := score r;
  max_score := max_score r
|}.

(** The attributes the evaluation block assigns, as Python values not yet
    flushed; [None] is an attribute not assigned. *)
Record Dirty : Type := {
  d_confidence_score : option json;
  d_accuracy_score : option json;
  d_completeness_score : option json;
  d_ai_feedback : option json;
  d_score : option json;
  d_max_score : option json
}.

Definition clean : Dirty :=
  {| d_confidence_score := None; d_accuracy_score := None;
     d_completeness_score := None; d_ai_feedback := None;
     d_score := None; d_max_score := None |}.

Definition assign_scores (s m : json) (w : Dirty) : Dirty :=
  {| d_confidence_score := d_confidence_score w;
     d_accuracy_score := d_accuracy_score w;
     d_completeness_score := d_completeness_score w;
     d_ai_feedback := d_ai_feedback w;
     d_score := Some s; d_max_score := Some m |}.

(** The [try] block of the evaluation: four [.get] and the product, in the
    order of the source. An exception leaves the earlier assignments. *)
Definition try_evaluation (ev : json) : py Dirty * Dirty :=
  match Py.get ev "confidence_score" JNull with
  | Raise e => (Raise e, clean)
  | Return c =>
  match Py.get ev "accuracy_score" JNull with
  | Raise e => (Raise e, clean)
  | Return a =>
  match Py.get ev "completeness_score" JNull with
  | Raise e => (Raise e, clean)
  | Return k =>
  match Py.get ev "feedback" JNull with
  | Raise e => (Raise e, clean)
  | Return fb =>
      let w := {| d_confidence_score := Some c; d_accuracy_score := Some a;
                  d_completeness_score := Some k; d_ai_feedback := Some fb;
                  d_score := None; d_max_score := None |} in
      match overall ← Py.get ev "overall_score" (JNum 0); times10 overall with
      | Raise e => (Raise e, w)
      | Return s => (Return (assign_scores s (JNum 10) w), w)
      end
  end end end end.

(** The evaluation block with its handler: the default score on any
    exception. *)
Definition evaluate_block (u : upstream) : Dirty :=
  match try_evaluation (evaluate_viva_response u) with
  | (Return w, _) => w
  | (Raise _, w) => assign_scores (JNum 7) (JNum 10) w
  end.

(** ** The database's coercions

    [core/database.py] and the models are not among the sources; the
    configuration names a PostgreSQL server. What [db.commit()] does with a
    value that is not of the column's type is therefore left open: whether
    a string, a boolean, a list, an object or a number beyond the range of
    the floats is refused (the commit raises) or stored, and as which
    value, for a [Float] column ([cast_float]) and for a [Text] column
    ([cast_text]); and which integers an [Integer] column holds
    ([fits_integer]). The general properties below are stated for every
    database; the evaluated samples run on [Sample.strict], and reach no
    cast. *)
Class Database : Type := {
  cast_float : json -> option Q;
  cast_text : json -> option string;
  fits_integer : Z -> bool
}.

(** What [db.commit()] writes to a [Float] column and to a [Text] column:
    the old value when the attribute was not assigned, [NULL] for [None],
    a number as the float nearest to it, a string as it is; every other
    value as the database casts it, the commit failing ([None]) when the
    database refuses it. *)
Definition float_column `{Database} (old : option Q) (v : option json)
  : option (option Q) :=
  match v with
  | None => Some old
  | Some JNull => Some None
  | Some (JNum q) =>
      if finite q then Some (Some (double q)) else Some <$> cast_float (JNum q)
  | Some x => Some <$> cast_float x
  end.

Definition text_column `{Database} (old : option string) (v : option json)
  : option (option string) :=
  match v with
  | None => Some old
  | Some JNull => Some None
  | Some (JStr s) => Some (Some s)
  | Some x => Some <$> cast_text x
  end.

(** The row after the flush, or [None] when the database rejects a value. *)
Definition flush `{Database} (w : Dirty) (r : VivaResponse) : option VivaResponse :=
  c ← float_column (confidence_score r) (d_confidence_score w);
  a ← float_column (accuracy_score r) (d_accuracy_score w);
  k ← float_column (completeness_score r) (d_completeness_score w);
  fb ← text_column (ai_feedback r) (d_ai_feedback w);
  s ← float_column (score r) (d_score w);
  m ← float_column (max_score r) (d_max_score w);
  Some {|
    response_id := response_id r;
    viva_session_id := viva_session_id r;
    question_text := question_text r;
    order_index := order_index r;
    response_text := response_text r;
    response_audio_path := response_audio_path r;
    response_timestamp := response_timestamp r;
    response_duration := response_duration r;
    confidence_score := c; accuracy_score := a; completeness_score := k;
    ai_feedback := fb; score := s; max_score := m
  |}.

(** ** The handlers of [endpoints/viva.py] *)

Definition is_none {A} (x : option A) : bool :=
  match x with None => true | Some _ => false end.

(** The query for the current question:
    [filter(viva_session_id == session_id, response_text.is_(None))
     .order_by(order_index.desc()).first()],
    as the position and the row of the pending response of greatest
    [order_index] (the earliest row among equals). *)
Fixpoint pending_from (sid : Z) (rs : list VivaResponse) (i : nat)
    (best : option (nat * VivaResponse)) : option (nat * VivaResponse) :=
  match rs with
  | [] => best
  | r :: rest =>
      let best' :=
        if (viva_session_id r =? sid) && is_none (response_text r) then
          match best with
          | Some (_, b) => if order_index b <? order_index r then Some (i, r) else best
          | None => Some (i, r)
          end
        else best in
      pending_from sid rest (S i) best'
  end.

Definition current_response (sid : Z) (db : DB) : option (nat * VivaResponse) :=
  pending_from sid (responses db) 0%nat None.

(** [create_viva_session] *)
Definition create_viva_session (submission : Z) (kind : VivaSessionType)
    (current_user : User) (db : DB) : DB * http Z :=
  if decide (role current_user = STUDENT) then
    match submissions db !! submission with
    | None => (db, Err (HTTP_404_NOT_FOUND "Submission not found"))
    | Some sub =>
        if negb (submission_student_id sub =? user_id current_user) then
          (db, Err (HTTP_403_FORBIDDEN
                      "Not authorized to create viva session for this submission"))
        else if String.eqb (submission_status sub) "draft" then
          (db, Err (HTTP_400_BAD_REQUEST
                      "Cannot create viva session for draft submission"))
        else
          let key := session_seq db in
          ({| sessions :=
                <[key := new_session submission (user_id current_user) kind]>
                  (sessions db);
              session_seq := key + 1;
              responses := responses db;
              submissions := submissions db |},
           Ok key)
    end
  else (db, Err (HTTP_403_FORBIDDEN
                   "Not enough permissions. Student role required.")).

(** [update_viva_session] *)
Definition setattr {A} (set : A -> VivaSession -> VivaSession)
    (v : option A) (s : VivaSession) : VivaSession :=
  match v with
  | Some a => set a s
  | None => s
  end.

Definition update_fields (d : VivaSessionUpdate) (s : VivaSession) : VivaSession :=
  let s := setattr Set_.status (u_status d) s in
  let s := setattr Set_.video_file_path (u_video_file_path d) s in
  let s := setattr Set_.audio_file_path (u_audio_file_path d) s in
  let s := setattr Set_.transcript_file_path (u_transcript_file_path d) s in
  setattr Set_.duration_seconds (u_duration_seconds d) s.

(** The [Integer] column [duration_seconds] at [db.commit()]: an integer
    assigned to it has to fit. *)
Definition integer_column `{Database} (v : option (option Z)) : bool :=
  match v with
  | Some (Some z) => fits_integer z
  | _ => true
  end.

Definition update_timestamps (d : VivaSessionUpdate) (t : Z) (s : VivaSession)
  : VivaSession :=
  match u_status d with
  | Some IN_PROGRESS =>
      if is_none (started_at s) then Set_.started_at (Some t) s else s
  | Some COMPLETED =>
      if is_none (completed_at s) then Set_.completed_at (Some t) s else s
  | _ => s
  end.

Definition update_viva_session `{Database} (session_id : Z)
    (session_data : VivaSessionUpdate)
    (current_user : User) (t : Z) (db : DB) : DB * http VivaSession :=
  match sessions db !! session_id with
  | None => (db, Err (HTTP_404_NOT_FOUND "Viva session not found"))
  | Some session =>
      if bool_decide (role current_user = STUDENT)
         && negb (student_id session =? user_id current_user) then
        (db, Err (HTTP_403_FORBIDDEN "Not authorized to update this viva session"))
      else
        let session := update_fields session_data session in
        let session := update_timestamps session_data t session in
        if integer_column (u_duration_seconds session_data) then
          (with_sessions (<[session_id := session]> (sessions db)) db, Ok session)
        else
          (* [db.commit()] raises: nothing is stored *)
          (db, Err (HTTP_500_INTERNAL_SERVER_ERROR "Internal Server Error"))
  end.

(** [start_viva_session] *)
Definition start_viva_session (session_id : Z) (current_user : User)
    (env : Env) (db : DB) : DB * http StartReply :=
  if decide (role current_user = STUDENT) then
    match sessions db !! session_id with
    | None => (db, Err (HTTP_404_NOT_FOUND "Viva session not found"))
    | Some session =>
        if negb (student_id session =? user_id current_user) then
          (db, Err (HTTP_403_FORBIDDEN "Not authorized to start this viva session"))
        else if negb (bool_decide (status session = SCHEDULED)) then
          (db, Err (HTTP_400_BAD_REQUEST "Session is not in scheduled state"))
        else
          let session := Set_.status IN_PROGRESS session in
          let session := Set_.started_at (Some (now env)) session in
          if fault env then
            (db, Err (HTTP_500_INTERNAL_SERVER_ERROR
                        "Failed to generate first question"))
          else
            let ai_response := generate_viva_question (generation env) in
            let viva_response :=
              new_response db session_id (question ai_response) 1 in
            let session := Set_.questions_asked 1 session in
            ({| sessions := <[session_id := session]> (sessions db);
                session_seq := session_seq db;
                responses := responses db ++ [viva_response];
                submissions := submissions db |},
             Ok {| first_question := question ai_response;
                   start_response_id := response_id viva_response |})
    end
  else (db, Err (HTTP_403_FORBIDDEN
                   "Not enough permissions. Student role required.")).

(** The end of the session: the last part of [submit_viva_response], run on
    the database as the first commit left it. *)
Definition end_session (session_id : Z) (session : VivaSession) (env : Env)
    (db : DB) : DB * http RespondReply :=
  let session := Set_.status COMPLETED session in
  let session := Set_.completed_at (Some (now env)) session in
  let rs := session_responses session_id db in
  match Aggregator.aggregate rs session with
  | Return session =>
      (with_sessions (<[session_id := session]> (sessions db)) db,
       Ok (SessionComplete (Aggregator.sum_if score rs)
                           (Aggregator.sum_if max_score rs)))
  | Raise _ => (db, Err (HTTP_500_INTERNAL_SERVER_ERROR "Internal Server Error"))
  end.

(** The next question: the [try] block of the continuation, when nothing
    in it raises. *)
Definition ask_next (session_id : Z) (session : VivaSession) (env : Env)
    (db : DB) : DB * http RespondReply :=
  let ai_response := generate_viva_question (generation env) in
  let next_response :=
    new_response db session_id (question ai_response)
      (questions_asked session + 1) in
  let session := Set_.questions_asked (questions_asked session + 1) session in
  ({| sessions := <[session_id := session]> (sessions db);
      session_seq := session_seq db;
      responses := responses db ++ [next_response];
      submissions := submissions db |},
   Ok (NextQuestion (question ai_response) (response_id next_response))).

(** The database after the first [db.commit()] of [submit_viva_response]:
    the answered row and the incremented counter. *)
Definition answered (session_id : Z) (session : VivaSession) (i : nat)
    (row : VivaResponse) (db : DB) : DB :=
  {| sessions := <[session_id := session]> (sessions db);
     session_seq := session_seq db;
     responses := <[i := row]> (responses db);
     submissions := submissions db |}.

(** [submit_viva_response] *)
Definition submit_viva_response `{Database} (session_id : Z)
    (response_data : VivaResponseCreate)
    (current_user : User) (env : Env) (db : DB) : DB * http RespondReply :=
  if decide (role current_user = STUDENT) then
    match sessions db !! session_id with
    | None => (db, Err (HTTP_404_NOT_FOUND "Viva session not found"))
    | Some session =>
        if negb (student_id session =? user_id current_user) then
          (db, Err (HTTP_403_FORBIDDEN
                      "Not authorized to respond in this viva session"))
        else if negb (bool_decide (status session = IN_PROGRESS)) then
          (db, Err (HTTP_400_BAD_REQUEST "Session is not in progress"))
        else
          match current_response session_id db with
          | None =>
              (db, Err (HTTP_400_BAD_REQUEST "No pending question to respond to"))
          | Some (i, row) =>
              let row := record_answer response_data row in
              let session :=
                Set_.questions_answered (questions_answered session + 1) session in
              match flush (evaluate_block (evaluation env)) row with
              | None =>
                  (* the first [db.commit()] raises: nothing is stored *)
                  (db, Err (HTTP_500_INTERNAL_SERVER_ERROR "Internal Server Error"))
              | Some row =>
                  let db1 := answered session_id session i row db in
                  if (questions_asked session <? 5) && negb (fault env) then
                    ask_next session_id session env db1
                  else end_session session_id session env db1
              end
          end
    end
  else (db, Err (HTTP_403_FORBIDDEN
                   "Not enough permissions. Student role required.")).

(** [core.config.Settings], the two policy constants of the viva. *)
Record Settings : Type := {
  MAX_VIVA_QUESTIONS : Z;
  MIN_VIVA_QUESTIONS : Z
}.

(** The values when the environment sets nothing. *)
Definition settings : Settings :=
  {| MAX_VIVA_QUESTIONS := 10; MIN_VIVA_QUESTIONS := 3 |}.

(** ** Sequences of requests *)

Inductive request : Type :=
| Create (submission : Z) (kind : VivaSessionType) (current_user : User)
| Update (session_id : Z) (session_data : VivaSessionUpdate)
         (current_user : User) (t : Z)
| Start (session_id : Z) (current_user : User) (env : Env)
| Respond (session_id : Z) (response_data : VivaResponseCreate)
          (current_user : User) (env : Env).

Definition handle `{Database} (db : DB) (rq : request) : DB :=
  match rq with
  | Create sub kind u => fst (create_viva_session sub kind u db)
  | Update sid d u t => fst (update_viva_session sid d u t db)
  | Start sid u env => fst (start_viva_session sid u env db)
  | Respond sid d u env => fst (submit_viva_response sid d u env db)
  end.

Definition run `{Database} (db : DB) (rqs : list request) : DB :=
  fold_left handle rqs db.

(** The requests of the respondent's dialogue: create, start, respond. *)
Definition is_dialogue (rq : request) : bool :=
  match rq with
  | Update _ _ _ _ => false
  | _ => true
  end.

(** A database in which no session exists yet. *)
Definition empty_db (subs : gmap Z Submission) : DB :=
  {| sessions := ∅; session_seq := 1; responses := []; submissions := subs |}.

(** ** The words of the specification *)

Module Spec.

(** Section 4.2, "question text present": the payload is an object with
    a [question] entry. *)
Definition question_present (v : json) : bool :=
  match v with
  | JDict kv => negb (is_none (assoc "question" kv))
  | _ => false
  end.

Definition is_str (v : json) : bool :=
  match v with JStr _ => true | _ => false end.

Definition is_str_list (v : option json) : bool :=
  match v with Some (JList l) => forallb is_str l | _ => false end.

(** Section 6, the shape of a generated question:
    [{questionText, expectedKeywords[], followUps[], rubric}]. *)
Definition question_shape (v : json) : bool :=
  match v with
  | JDict kv =>
      match assoc "question" kv with Some (JStr _) => true | _ => false end
      && is_str_list (assoc "expected_keywords" kv)
      && is_str_list (assoc "follow_up_questions" kv)
      && match assoc "scoring_criteria" kv with
         | Some (JDict _) => true
         | _ => false
         end
  | _ => false
  end.

(** Section 6, a score of an evaluation: present and within [0,1]. *)
Definition unit_score (v : option json) : bool :=
  match v with
  | Some (JNum q) => Qle_bool 0 q && Qle_bool q 1
  | _ => false
  end.

Definition evaluation_shape (v : json) : bool :=
  match v with
  | JDict kv =>
      unit_score (assoc "accuracy_score" kv)
      && unit_score (assoc "completeness_score" kv)
      && unit_score (assoc "confidence_score" kv)
      && unit_score (assoc "overall_score" kv)
  | _ => false
  end.

(** The adapter cannot produce a question: timeout or transport error,
    or a payload that has not the shape of a question. *)
Inductive generation_fails : upstream -> Prop :=
| generation_failed e : generation_fails (Failed e)
| generation_malformed v :
    question_shape v = false -> generation_fails (Parsed v).




(** Section 4.4: a field of a turn as a number, an unset one counting
    for nothing; [Σ turn.f]; the mean of a field. *)
Definition value (x : option Q) : Q :=
  match x with Some q => q | None => 0%Q end.

Fixpoint sigma (f : VivaResponse -> option Q) (rs : list VivaResponse) : Q :=
  match rs with
  | [] => 0%Q
  | r :: rest => (value (f r) + sigma f rest)%Q
  end.

Definition mean (f : VivaResponse -> option Q) (rs : list VivaResponse) : Q :=
  (sigma f rs / inject_Z (Z.of_nat (length rs)))%Q.

(** Section 3: the turns of a session are the rows of the table that carry
    its key, in the order of the table. *)
Definition turns (sid : Z) (db : DB) : list VivaResponse :=
  filter (fun r => viva_session_id r = sid) (responses db).

(** Section 3: the pending turns of a session are those without response. *)
Definition pending (sid : Z) (db : DB) : list VivaResponse :=
  List.filter (fun r => is_none (response_text r)) (session_responses sid db).

(** Section 4.1: the order of the lifecycle. *)
Definition rank (s : VivaSessionStatus) : Z :=
  match s with SCHEDULED => 0 | IN_PROGRESS => 1 | COMPLETED => 2 end.

(** Section 3, [answered ≤ asked], and what the lifecycle adds to it. *)
Definition counters_ok (s : VivaSession) : Prop :=
  match status s with
  | SCHEDULED => questions_asked s = 0 /\ questions_answered s = 0
  | IN_PROGRESS => questions_answered s < questions_asked s
  | COMPLETED => questions_answered s <= questions_asked s
  end.

Abbreviation counters_hold db :=
  (map_Forall (fun (_ : Z) s => counters_ok s) (sessions db)).

End Spec.

(** ** Sample data *)

Module Sample.

(** A database that refuses every value it would have to cast, with
    [Integer] columns of 32 bits. The runs of this module assign numbers to
    [Float] columns and strings to [Text] columns only. *)
#[global] Instance strict : Database := {|
  cast_float := fun _ => None;
  cast_text := fun _ => None;
  fits_integer := fun z => (- 2 ^ 31 <=? z) && (z <? 2 ^ 31)
|}.

Definition alice : User := {| user_id := 7; role := STUDENT |}.

Definition subs : gmap Z Submission :=
  {[ 1 := {| submission_student_id := 7; submission_status := "submitted" |} ]}.

Definition a_question : upstream :=
  Parsed (JDict [("question", JStr "Why is the sort stable?");
                 ("expected_keywords", JList [JStr "order"; JStr "equal keys"]);
                 ("follow_up_questions", JList [JStr "Is quicksort stable?"]);
                 ("scoring_criteria", JDict [("excellent", JStr "Explains ties")])]).

Definition an_evaluation : upstream :=
  Parsed (JDict [("accuracy_score", JNum 0.8%Q);
                 ("completeness_score", JNum 0.5%Q);
                 ("confidence_score", JNum 0.9%Q);
                 ("overall_score", JNum 0.8%Q);
                 ("feedback", JStr "Good.")]).

(** All four scores present, one of them outside [0,1]. *)
Definition out_of_range : json :=
  JDict [("accuracy_score", JNum 0.8%Q);
         ("completeness_score", JNum 0.5%Q);
         ("confidence_score", JNum 0.9%Q);
         ("overall_score", JNum 1.5%Q);
         ("feedback", JStr "Good.")].

(** An object without any of the four scores. *)
Definition unscored : json := JDict [("feedback", JStr "ok")].

(** A healthy provider and a provider that times out. *)
Definition healthy : Env :=
  {| now := 100; generation := a_question; evaluation := an_evaluation;
     fault := false |}.

Definition down : Env :=
  {| now := 100; generation := Failed APIError; evaluation := Failed APIError;
     fault := false |}.

(** A provider whose evaluations carry no score. *)
Definition careless : Env :=
  {| now := 100; generation := a_question; evaluation := Parsed unscored;
     fault := false |}.

Definition answer (text : option string) : VivaResponseCreate :=
  {| c_question_text := "Why is the sort stable?";
     c_response_text := text;
     c_response_audio_path := Some "media/answer.webm";
     c_question_timestamp := None;
     c_response_timestamp := None;
     c_response_duration := None |}.

Definition turn (idx : Z) (s m : Q) : VivaResponse :=
  {| response_id := idx; viva_session_id := 1;
     question_text := "Why is the sort stable?"; order_index := idx;
     response_text := Some "Because equal keys keep their order.";
     response_audio_path := None;
     response_timestamp := None; response_duration := None;
     confidence_score := None; accuracy_score := None;
     completeness_score := None; ai_feedback := None;
     score := Some s; max_score := Some m |}.

(** A session created and started by its student. *)
Definition started : DB :=
  run (empty_db subs) [Create 1 FINAL alice; Start 1 alice healthy].

Definition created : DB := run (empty_db subs) [Create 1 FINAL alice].

(** The same after five spoken answers. *)
Definition finished : DB :=
  run started (repeat (Respond 1 (answer (Some "Because.")) alice healthy) 5).

(** A dialogue whose second answer comes without text. *)
Definition dialogue : list request :=
  [Create 1 FINAL alice; Start 1 alice healthy;
   Respond 1 (answer (Some "Because.")) alice healthy;
   Respond 1 (answer None) alice down].

(** The started session after one answer without text. *)
Definition untexted : DB :=
  run started [Respond 1 (answer None) alice healthy].

(** The started session after four spoken answers. *)
Definition fifth_pending : DB :=
  run started (repeat (Respond 1 (answer (Some "Because.")) alice healthy) 4).

Definition reopen : VivaSessionUpdate :=
  {| u_status := Some IN_PROGRESS; u_video_file_path := None;
     u_audio_file_path := None; u_transcript_file_path := None;
     u_duration_seconds := None |}.

(** The session of [untexted] brought to its end by four spoken answers,
    and the same reopened by an update and answered once more while the
    provider is down. *)
Definition untexted_finished : DB :=
  run untexted (repeat (Respond 1 (answer (Some "Because.")) alice healthy) 4).

Definition reanswered : DB :=
  run untexted_finished
    [Update 1 reopen alice 200; Respond 1 (answer (Some "Again.")) alice down].

(** An update that sets the status to completed, and the started session
    after it. *)
Definition close : VivaSessionUpdate :=
  {| u_status := Some COMPLETED; u_video_file_path := None;
     u_audio_file_path := None; u_transcript_file_path := None;
     u_duration_seconds := None |}.

Definition closed : DB := run started [Update 1 close alice 200].

End Sample.

(** ** The read handlers of [endpoints/viva.py] *)

#[global] Instance VivaSessionType_eq_dec : EqDecision VivaSessionType.
Proof. solve_decision. Defined.

(** Modelled from the spec: [models/assignment.py] is not among the
    sources. Of the assignment of a submission the read handlers use the
    teacher ([submission.assignment.teacher_id]); [teachers] gives it by
    the key of the submission. *)
Definition assignment_teacher (teachers : gmap Z Z) (submission : Z) : option Z :=
  teachers !! submission.

(** [get_viva_session]. A teacher's branch dereferences the submission and
    its assignment: a missing one is an unhandled exception. A user who is
    neither student nor teacher passes both tests. *)
Definition get_viva_session (session_id : Z) (current_user : User)
    (teachers : gmap Z Z) (db : DB) : http VivaSession :=
  match sessions db !! session_id with
  | None => Err (HTTP_404_NOT_FOUND "Viva session not found")
  | Some session =>
      match role current_user with
      | STUDENT =>
          if negb (student_id session =? user_id current_user) then
            Err (HTTP_403_FORBIDDEN "Not authorized to view this viva session")
          else Ok session
      | TEACHER =>
          match submissions db !! submission_id session,
                assignment_teacher teachers (submission_id session) with
          | Some _, Some teacher =>
              if negb (teacher =? user_id current_user) then
                Err (HTTP_403_FORBIDDEN "Not authorized to view this viva session")
              else Ok session
          | _, _ => Err (HTTP_500_INTERNAL_SERVER_ERROR "Internal Server Error")
          end
      | ADMIN => Ok session
      end
  end.

(** The first filter of [list_viva_sessions]: a student's own sessions, a
    teacher's sessions through the join of submissions and assignments,
    and no filter for another role. *)
Definition listed_for (current_user : User) (teachers : gmap Z Z) (db : DB)
    (s : VivaSession) : bool :=
  match role current_user with
  | STUDENT => student_id s =? user_id current_user
  | TEACHER =>
      match submissions db !! submission_id s,
            assignment_teacher teachers (submission_id s) with
      | Some _, Some teacher => teacher =? user_id current_user
      | _, _ => false
      end
  | ADMIN => true
  end.

(** [if submission_id:] applies the filter to a value that is true. *)
Definition by_submission (submission : option Z) (s : VivaSession) : bool :=
  match submission with
  | Some k => if k =? 0 then true else submission_id s =? k
  | None => true
  end.

Definition by_type (kind : option VivaSessionType) (s : VivaSession) : bool :=
  match kind with
  | Some k => bool_decide (session_type s = k)
  | None => true
  end.

(** [list_viva_sessions]: the rows of [query.all()], by primary key. *)
Definition list_viva_sessions (submission : option Z)
    (kind : option VivaSessionType) (current_user : User)
    (teachers : gmap Z Z) (db : DB) : gmap Z VivaSession :=
  filter (fun kv => listed_for current_user teachers db (snd kv)
                    && by_submission submission (snd kv)
                    && by_type kind (snd kv) = true)
         (sessions db).

(** ** Practice questions *)

Module Practice.

(** The elements [for q in questions_data] visits, for each value
    [json.loads] can return: the items of a list, the keys of a dict, the
    characters of a string. *)
Definition chars (s : string) : list json :=
  map (fun c => JStr (String c EmptyString)) (list_ascii_of_string s).

Definition iterate (v : json) : py (list json) :=
  match v with
  | JList l => Return l
  | JDict kv => Return (map (fun kv => JStr (fst kv)) kv)
  | JStr s => Return (chars s)
  | JNull | JBool _ | JNum _ => Raise TypeError
  end.

(** The list comprehension over the elements: one
    [AIQuestionResponse(...)] each, in order. *)
Fixpoint parse_each (l : list json) : py (list AIQuestionResponse) :=
  match l with
  | [] => Return []
  | q :: rest =>
      r ← parse_question (Parsed q);
      rs ← parse_each rest;
      Return (r :: rs)
  end.

(** [range(n)]; [n] must be an [int]. *)
Definition range (n : option Z) : py (list Z) :=
  match n with
  | Some k => Return (seqZ 0 k)
  | None => Raise TypeError
  end.

Definition practice_question (i : Z) : AIQuestionResponse := {|
  question :=
    "Practice question " ++ pretty (i + 1)
    ++ ": Explain a key concept from the assignment.";
  expected_keywords := ["concept"; "explanation"];
  follow_up_questions := ["Can you elaborate?"];
  scoring_criteria :=
    [("excellent", JStr "Clear and detailed explanation");
     ("good", JStr "Good understanding shown");
     ("satisfactory", JStr "Basic explanation provided");
     ("needs_improvement", JStr "Unclear or incomplete")]
|}.

(** [AIService.generate_mock_questions]: the [try] block, and the handler
    that builds the fallback questions (and can raise itself). *)
Definition generate_mock_questions (u : upstream) (question_count : option Z)
  : py (list AIQuestionResponse) :=
  match (questions_data ← loads u;
         qs ← iterate questions_data;
         parse_each qs) with
  | Return rs => Return rs
  | Raise _ =>
      indices ← range question_count;
      Return (map practice_question indices)
  end.

(** [schemas.viva.MockVivaRequest] *)
Record MockVivaRequest : Type := {
  assignment_id : Z;
  difficulty_preference : option string;
  question_count : option Z
}.

(** Modelled from the spec: the row of [models/assignment.py], with the
    attribute the handler tests. *)
Record Assignment : Type := { is_active : bool }.

(** The handler [generate_mock_questions] of [endpoints/viva.py]. *)
Definition mock_questions (request : MockVivaRequest) (current_user : User)
    (u : upstream) (assignments : gmap Z Assignment)
  : http (list AIQuestionResponse) :=
  if decide (role current_user = STUDENT) then
    match assignments !! assignment_id request with
    | None => Err (HTTP_404_NOT_FOUND "Assignment not found")
    | Some assignment =>
        if negb (is_active assignment) then
          Err (HTTP_400_BAD_REQUEST "Assignment is not active")
        else
          match generate_mock_questions u (question_count request) with
          | Return qs => Ok qs
          | Raise _ =>
              Err (HTTP_500_INTERNAL_SERVER_ERROR
                     "Failed to generate mock questions")
          end
    end
  else Err (HTTP_403_FORBIDDEN "Not enough permissions. Student role required.").

End Practice.

(** ** The outcome of a request *)

(** The error a request is answered with, if any. *)
Definition error_of {A} (r : DB * http A) : option HTTPException :=
  match snd r with
  | Ok _ => None
  | Err e => Some e
  end.

Definition failure `{Database} (db : DB) (rq : request) : option HTTPException :=
  match rq with
  | Create sub kind u => error_of (create_viva_session sub kind u db)
  | Update sid d u t => error_of (update_viva_session sid d u t db)
  | Start sid u env => error_of (start_viva_session sid u env db)
  | Respond sid d u env => error_of (submit_viva_response sid d u env db)
  end.

(** The session a start or respond request addresses, and who sends it. *)
Definition addressed (rq : request) : option (Z * User) :=
  match rq with
  | Start sid u _ => Some (sid, u)
  | Respond sid _ u _ => Some (sid, u)
  | _ => None
  end.

(** A respond request whose answer carries text. *)
Definition is_texted (rq : request) : bool :=
  match rq with
  | Update _ _ _ _ => false
  | Respond _ d _ _ => negb (is_none (c_response_text d))
  | _ => true
  end.

(** The keys of the sessions are below the sequence that numbers the
    next one. *)
Definition keys_below_sequence (db : DB) : Prop :=
  forall k s, sessions db !! k = Some s -> k < session_seq db.

(** The session [sid] exists, belongs to [student] and has come to the
    state [st] of the lifecycle, or further. *)
Definition has_reached (sid student : Z) (st : VivaSessionStatus) (db : DB)
  : Prop :=
  exists s, sessions db !! sid = Some s /\ student_id s = student /\
            Spec.rank st <= Spec.rank (status s).

(** ** What a dialogue keeps *)

Module Dialogue.

(** The counters, timestamps and totals of a session agree with its
    lifecycle state. *)
Definition lifecycle_ok (s : VivaSession) : Prop :=
  match status s with
  | SCHEDULED =>
      questions_asked s = 0 /\ questions_answered s = 0 /\
      started_at s = None /\ completed_at s = None /\
      total_score s = None /\ max_possible_score s = None
  | IN_PROGRESS =>
      0 <= questions_answered s /\
      questions_asked s = questions_answered s + 1 /\ questions_asked s <= 5 /\
      is_Some (started_at s) /\ completed_at s = None /\
      total_score s = None /\ max_possible_score s = None
  | COMPLETED =>
      1 <= questions_asked s <= 5 /\
      questions_answered s = questions_asked s /\
      is_Some (started_at s) /\ is_Some (completed_at s) /\
      is_Some (total_score s) /\ is_Some (max_possible_score s)
  end.

(** The turns of a session are numbered 1, 2, ... up to the number of
    questions asked, in table order. *)
Definition turns_ok (sid : Z) (s : VivaSession) (db : DB) : Prop :=
  map order_index (session_responses sid db) = seqZ 1 (questions_asked s).

(** A session in progress has one pending turn, the last one asked; a
    session in another state has none. *)
Definition pending_ok (sid : Z) (s : VivaSession) (db : DB) : Prop :=
  match status s with
  | IN_PROGRESS =>
      exists r, Spec.pending sid db = [r] /\ order_index r = questions_asked s
  | _ => Spec.pending sid db = []
  end.

Record consistent (db : DB) : Prop := {
  keys_below_seq :
    forall sid s, sessions db !! sid = Some s -> sid < session_seq db;
  no_orphans :
    forall sid, sessions db !! sid = None -> session_responses sid db = [];
  lifecycles :
    forall sid s, sessions db !! sid = Some s -> lifecycle_ok s;
  turns :
    forall sid s, sessions db !! sid = Some s -> turns_ok sid s db
}.

Record single_pending (db : DB) : Prop := {
  is_consistent : consistent db;
  pendings :
    forall sid s, sessions db !! sid = Some s -> pending_ok sid s db
}.

End Dialogue.

(** ** The wire format of a question *)

(** The JSON object the system prompt of [generate_viva_question] asks the
    provider for. *)
Definition question_json (r : AIQuestionResponse) : json :=
  JDict [("question", JStr (question r));
         ("expected_keywords", JList (map JStr (expected_keywords r)));
         ("follow_up_questions", JList (map JStr (follow_up_questions r)));
         ("scoring_criteria", JDict (scoring_criteria r))].

(** ** More sample data *)

Module Fixture.

Definition bob : User := {| user_id := 3; role := TEACHER |}.

Definition carol : User := {| user_id := 8; role := STUDENT |}.

(** The assignment of submission 1 belongs to teacher 3. *)
Definition teachers : gmap Z Z := {[ 1 := 3 ]}.

Definition assignments : gmap Z Practice.Assignment :=
  {[ 1 := {| Practice.is_active := true |};
     2 := {| Practice.is_active := false |} ]}.

Definition practice (count : option Z) : Practice.MockVivaRequest :=
  {| Practice.assignment_id := 1;
     Practice.difficulty_preference := Some "similar";
     Practice.question_count := count |}.

Definition spoken : VivaResponseCreate := Sample.answer (Some "Because.").

(** Five spoken answers after create and start. *)
Definition interview : list request :=
  [Create 1 FINAL Sample.alice; Start 1 Sample.alice Sample.healthy]
  ++ repeat (Respond 1 spoken Sample.alice Sample.healthy) 5.

Definition no_update : VivaSessionUpdate :=
  {| u_status := None; u_video_file_path := None; u_audio_file_path := None;
     u_transcript_file_path := None; u_duration_seconds := None |}.

(** A session opened by an update instead of a start: in progress without
    any turn. *)
Definition opened : DB :=
  run Sample.created [Update 1 Sample.reopen Sample.alice 150].

End Fixture.

(** The session with one more answer counted, and the pending test of the
    query for the current question. *)
Abbreviation counted session :=
  (Set_.questions_answered (questions_answered session + 1) session).

Definition is_pending (sid : Z) (r : VivaResponse) : bool :=
  (viva_session_id r =? sid) && is_none (response_text r).

(** * Properties *)

(** ** The client adapter *)

Section Adapter.

Lemma bind_return {A B} (a : A) (k : A -> py B) : (x ← Return a; k x) = k a.
Proof. reflexivity. Qed.

Lemma validate_strs_reject (l : list json) :
  forallb Spec.is_str l = false -> exists e, validate_strs l = Raise e.
Proof.
  induction l as [|v l IH]; simpl; [discriminate|].
  destruct v; simpl; eauto.
  intros H. destruct (IH H) as [e ->]. eauto.
Qed.

Lemma validate_str_list_reject (v : json) :
  Spec.is_str_list (Some v) = false -> exists e, validate_str_list v = Raise e.
Proof.
  destruct v; simpl; eauto. apply validate_strs_reject.
Qed.

(** A payload without the shape of a question makes the [try] block of
    [generate_viva_question] raise. *)
Lemma parse_question_reject (v : json) :
  Spec.question_shape v = false -> exists e, parse_question (Parsed v) = Raise e.
Proof.
  unfold parse_question, Spec.question_shape.
  destruct v as [| | | | |kv]; simpl; eauto.
  unfold subscript.
  destruct (assoc "question" kv) as [q|]; [|eauto].
  destruct (assoc "expected_keywords" kv) as [kw|]; [|eauto].
  destruct (assoc "follow_up_questions" kv) as [fu|]; [|eauto].
  destruct (assoc "scoring_criteria" kv) as [sc|]; [|eauto].
  rewrite !bind_return.
  destruct q; simpl; eauto.
  destruct (Spec.is_str_list (Some kw)) eqn:Hkw.
  2:{ destruct (validate_str_list_reject _ Hkw) as [e ->]. eauto. }
  destruct (validate_str_list kw); [|eauto].
  destruct (Spec.is_str_list (Some fu)) eqn:Hfu.
  2:{ destruct (validate_str_list_reject _ Hfu) as [e ->]. eauto. }
  destruct (validate_str_list fu); [|eauto].
  destruct sc; simpl; eauto.
  simpl in Hkw, Hfu. rewrite Hkw, Hfu. discriminate.
Qed.

Lemma generate_fallback (u : upstream) :
  Spec.generation_fails u -> generate_viva_question u = fallback_question.
Proof.
  intros [e|v Hv]; [reflexivity|].
  unfold generate_viva_question.
  destruct (parse_question_reject v Hv) as [e ->]. reflexivity.
Qed.

Lemma question_absent_no_shape (v : json) :
  Spec.question_present v = false -> Spec.question_shape v = false.
Proof.
  destruct v as [| | | | |kv]; simpl; auto.
  destruct (assoc "question" kv); simpl; [discriminate|reflexivity].
Qed.

End Adapter.

(** C7 (as amended). [generate_viva_question] answers every reply that is
    a failure of the provider or a payload without the shape of a question
    (in particular one without question text) with its fallback question;
    [evaluate_viva_response] answers a failure of the provider with its
    fallback evaluation and returns every decoded payload unchanged,
    whatever scores it carries or lacks. *)
Theorem adapter_fallbacks :
  (forall u, Spec.generation_fails u ->
             generate_viva_question u = fallback_question) /\
  (forall v, Spec.question_present v = false ->
             generate_viva_question (Parsed v) = fallback_question) /\
  (forall e, evaluate_viva_response (Failed e) = fallback_evaluation) /\
  (forall v, evaluate_viva_response (Parsed v) = v).
Proof.
  split; [exact generate_fallback|].
  split; [|split; reflexivity].
  intros v Hv. apply generate_fallback. constructor.
  now apply question_absent_no_shape.
Qed.

Lemma adapter_fallbacks_witness :
  Spec.question_present (JDict [("expected_keywords", JList [])]) = false /\
  generate_viva_question (Parsed (JDict [("expected_keywords", JList [])]))
  = fallback_question.
Proof.
  split; [reflexivity|].
  apply (proj1 (proj2 adapter_fallbacks)). reflexivity.
Defined.

(** C7, the claim as stated, fails for the evaluation: a payload whose
    overall score is 1.5 has not the expected shape, and the adapter
    returns it, not the fallback evaluation. *)
Lemma evaluate_keeps_out_of_range :
  ~ (Spec.evaluation_shape Sample.out_of_range = false ->
     evaluate_viva_response (Parsed Sample.out_of_range) = fallback_evaluation).
Proof.
  intros H. specialize (H eq_refl). discriminate H.
Qed.

(** ** The scoring aggregator *)

Section Scoring.

Local Open Scope Q_scope.
Import Aggregator.

Lemma fold_left_Qplus (l : list Q) (a : Q) :
  fold_left Qplus l a == a + fold_right Qplus 0 l.
Proof.
  revert a. induction l as [|x l IH]; intros a; simpl.
  - ring.
  - rewrite IH. ring.
Qed.

Lemma or0_value (x : option Q) : or0 x == Spec.value x.
Proof.
  destruct x as [q|]; simpl; [|reflexivity].
  destruct (Qeq_bool q 0) eqn:E; [|reflexivity].
  symmetry. now apply Qeq_bool_eq.
Qed.



Lemma sum_or0_sigma (f : VivaResponse -> option Q) (rs : list VivaResponse) :
  sum (map (fun r => or0 (f r)) rs) == Spec.sigma f rs.
Proof.
  unfold sum. rewrite fold_left_Qplus, Qplus_0_l.
  induction rs as [|r rs IH]; simpl; [reflexivity|].
  now rewrite IH, or0_value.
Qed.

(** On a list that is not empty the division is defined. *)
Lemma mean_defined (f : VivaResponse -> option Q) (rs : list VivaResponse) :
  rs <> [] ->
  exists q, mean f rs = Return q /\ q == Spec.mean f rs.
Proof.
  intros Hne. unfold mean, truediv, Spec.mean.
  destruct rs as [|r rs]; [congruence|].
  replace (Z.of_nat (length (r :: rs)) =? 0)%Z with false
    by (symmetry; apply Z.eqb_neq; simpl; lia).
  eexists; split; [reflexivity|].
  now rewrite sum_or0_sigma.
Qed.

(** What [aggregate] writes, field by field. *)
Lemma aggregate_nonempty (rs : list VivaResponse) (s : VivaSession) :
  rs <> [] ->
  exists c a,
    mean confidence_score rs = Return c /\
    mean accuracy_score rs = Return a /\
    aggregate rs s =
      Return (Set_.technical_accuracy_score (Some a)
               (Set_.communication_score (Some c)
                 (Set_.overall_confidence_score (Some c)
                   (Set_.max_possible_score (Some (sum_if max_score rs))
                     (Set_.total_score (Some (sum_if score rs)) s))))).
Proof.
  intros Hne.
  destruct (mean_defined confidence_score rs Hne) as (c & Hc & _).
  destruct (mean_defined accuracy_score rs Hne) as (a & Ha & _).
  exists c, a. split; [exact Hc|]. split; [exact Ha|].
  unfold aggregate. destruct rs as [|r rs]; [congruence|].
  cbn [is_empty]. rewrite Hc, Ha. reflexivity.
Qed.

Lemma aggregate_returns (rs : list VivaResponse) (s : VivaSession) :
  exists s',
    aggregate rs s = Return s' /\
    total_score s' = Some (sum_if score rs) /\
    max_possible_score s' = Some (sum_if max_score rs) /\
    status s' = status s /\
    student_id s' = student_id s /\
    questions_asked s' = questions_asked s /\
    questions_answered s' = questions_answered s /\
    started_at s' = started_at s /\
    completed_at s' = completed_at s.
Proof.
  destruct rs as [|r rs].
  - eexists; split; [reflexivity|]. destruct s; repeat split.
  - destruct (aggregate_nonempty (r :: rs) s) as (c & a & _ & _ & ->);
      [congruence|].
    eexists; split; [reflexivity|]. destruct s; repeat split.
Qed.

End Scoring.


(** C9 (as amended). On the empty turn list the aggregator returns without
    dividing: it sets [total_score] and [max_possible_score] to 0 and leaves
    the three averages as they were, unset for a session never aggregated. *)
Theorem empty_list_aggregates :
  (forall session, exists session',
      Aggregator.aggregate [] session = Return session' /\
      total_score session' = Some 0%Q /\
      max_possible_score session' = Some 0%Q /\
      overall_confidence_score session' = overall_confidence_score session /\
      communication_score session' = communication_score session /\
      technical_accuracy_score session' = technical_accuracy_score session) /\
  (forall submission student kind, exists session',
      Aggregator.aggregate [] (new_session submission student kind)
      = Return session' /\
      overall_confidence_score session' = None /\
      communication_score session' = None /\
      technical_accuracy_score session' = None).
Proof.
  split.
  - intros session. eexists; split; [reflexivity|].
    destruct session; repeat split.
  - intros. eexists; split; [reflexivity|]. repeat split.
Qed.

(** C9, the claim as stated, fails: on the empty list the totals of a new
    session are not left unset. *)
Lemma empty_list_totals_are_set :
  ~ (exists session',
       Aggregator.aggregate [] (new_session 1 7 FINAL) = Return session' /\
       total_score session' = None /\
       max_possible_score session' = None /\
       overall_confidence_score session' = None /\
       communication_score session' = None /\
       technical_accuracy_score session' = None).
Proof.
  intros (s' & Hs' & Ht & _).
  cbn in Hs'. injection Hs' as <-. discriminate Ht.
Qed.

(** ** The session handlers *)

Section Engine.

Context {dbms : Database}.

Implicit Types (db : DB) (sid : Z) (env : Env) (user : User).
Implicit Types (session : VivaSession) (row : VivaResponse).

(** The query for the current question returns a row of the table that
    belongs to the session and has no response text. *)
Lemma pending_from_found sid (rs : list VivaResponse) (k : nat) best i row :
  pending_from sid rs k best = Some (i, row) ->
  best = Some (i, row) \/
  ((k <= i)%nat /\ rs !! (i - k)%nat = Some row /\
   viva_session_id row = sid /\ response_text row = None).
Proof.
  revert k best. induction rs as [|r rs IH]; intros k best H; simpl in H.
  - now left.
  - apply IH in H as [H|(Hk & Hl & Hs & Ht)].
    + destruct ((viva_session_id r =? sid) && is_none (response_text r)) eqn:E;
        [|now left].
      apply andb_true_iff in E as [E1 E2]. apply Z.eqb_eq in E1.
      assert (response_text r = None) by (now destruct (response_text r)).
      assert (Some (k, r) = Some (i, row) ->
              (k <= i)%nat /\ (r :: rs) !! (i - k)%nat = Some row /\
              viva_session_id row = sid /\ response_text row = None).
      { intros [= <- <-]. rewrite Nat.sub_diag. auto. }
      destruct best as [[j b]|]; [|auto].
      destruct (order_index b <? order_index r); auto.
    + right. split; [lia|]. split; [|auto].
      replace (i - k)%nat with (S (i - S k)) by lia. exact Hl.
Qed.

Lemma current_response_found sid db i row :
  current_response sid db = Some (i, row) ->
  responses db !! i = Some row /\
  viva_session_id row = sid /\ response_text row = None.
Proof.
  intros H. apply pending_from_found in H as [H|(_ & H & ?)]; [discriminate|].
  now rewrite Nat.sub_0_r in H.
Qed.





(** [end_session] always answers, with the session completed. *)
Lemma end_session_completes sid session env db :
  exists session' t m,
    end_session sid session env db
    = (with_sessions (<[sid := session']> (sessions db)) db,
       Ok (SessionComplete t m)) /\
    Aggregator.aggregate (session_responses sid db)
      (Set_.completed_at (Some (now env)) (Set_.status COMPLETED session))
    = Return session' /\
    status session' = COMPLETED /\
    questions_asked session' = questions_asked session /\
    questions_answered session' = questions_answered session.
Proof.
  unfold end_session.
  destruct (aggregate_returns (session_responses sid db)
              (Set_.completed_at (Some (now env)) (Set_.status COMPLETED session)))
    as (s' & Hs' & _ & _ & Hst & _ & Hqa & Hqn & _).
  rewrite Hs'. exists s'. do 2 eexists. split; [reflexivity|].
  split; [reflexivity|].
  rewrite Hst, Hqa, Hqn. destruct session; repeat split.
Qed.

(** The preconditions under which [submit_viva_response] records the
    answer, and what it then does. *)
Lemma submit_step sid (data : VivaResponseCreate) user env db session i row row' :
  role user = STUDENT ->
  sessions db !! sid = Some session ->
  student_id session = user_id user ->
  status session = IN_PROGRESS ->
  current_response sid db = Some (i, row) ->
  flush (evaluate_block (evaluation env)) (record_answer data row) = Some row' ->
  submit_viva_response sid data user env db =
    let session1 :=
      Set_.questions_answered (questions_answered session + 1) session in
    let db1 := answered sid session1 i row' db in
    if (questions_asked session1 <? 5) && negb (fault env)
    then ask_next sid session1 env db1
    else end_session sid session1 env db1.
Proof.
  intros Hr Hs Hu Hst Hc Hf. unfold submit_viva_response.
  rewrite Hr, Hs, Hu, Hst, Hc, Hf. rewrite Z.eqb_refl. reflexivity.
Qed.

Lemma submit_inv sid (data : VivaResponseCreate) user env db db' reply :
  submit_viva_response sid data user env db = (db', Ok reply) ->
  exists session i row row',
    role user = STUDENT /\
    sessions db !! sid = Some session /\
    student_id session = user_id user /\
    status session = IN_PROGRESS /\
    current_response sid db = Some (i, row) /\
    flush (evaluate_block (evaluation env)) (record_answer data row) = Some row'.
Proof.
  unfold submit_viva_response. intros H.
  destruct (decide (role user = STUDENT)) as [Hr|]; [|discriminate].
  destruct (sessions db !! sid) as [session|]; [|discriminate].
  destruct (student_id session =? user_id user) eqn:Hu; [|discriminate].
  simpl in H.
  destruct (bool_decide (status session = IN_PROGRESS)) eqn:Hst; [|discriminate].
  simpl in H.
  destruct (current_response sid db) as [[i row]|]; [|discriminate].
  destruct (flush _ _) as [row'|] eqn:Hf; [|discriminate].
  exists session, i, row, row'.
  apply Z.eqb_eq in Hu. apply bool_decide_eq_true in Hst. auto 10.
Qed.

End Engine.

Section Fallbacks.

Context {dbms : Database}.

Implicit Types (db : DB) (sid : Z) (env : Env) (user : User).
Implicit Types (session : VivaSession) (row : VivaResponse).


End Fallbacks.

(** C5. When the respondent starts a scheduled session and the adapter
    cannot produce a question (the provider fails or its payload is
    malformed), the call succeeds: the session is in progress with one
    question asked and no other session is touched; exactly one row is
    appended to the table, turn 1 of the session, pending and unscored,
    with the fixed fallback question, which is also the question
    returned. *)
Theorem start_with_failing_adapter
    (sid : Z) (user : User) (env : Env) (db : DB) (session : VivaSession) :
  sessions db !! sid = Some session ->
  status session = SCHEDULED ->
  role user = STUDENT ->
  student_id session = user_id user ->
  fault env = false ->
  Spec.generation_fails (generation env) ->
  exists db' reply session' turn,
    start_viva_session sid user env db = (db', Ok reply) /\
    first_question reply =
      "Can you explain the main concepts from your assignment in your own words?" /\
    start_response_id reply = response_id turn /\
    sessions db' !! sid = Some session' /\
    (forall other, other <> sid -> sessions db' !! other = sessions db !! other) /\
    status session' = IN_PROGRESS /\
    questions_asked session' = 1 /\
    questions_answered session' = questions_answered session /\
    started_at session' = Some (now env) /\
    completed_at session' = completed_at session /\
    responses db' = (responses db ++ [turn])%list /\
    turn =
      {| response_id := start_response_id reply;
         viva_session_id := sid;
         question_text :=
           "Can you explain the main concepts from your assignment in your own words?";
         order_index := 1;
         response_text := None; response_audio_path := None;
         response_timestamp := None; response_duration := None;
         confidence_score := None; accuracy_score := None;
         completeness_score := None; ai_feedback := None;
         score := None; max_score := None |}.
Proof.
  intros Hs Hst Hr Hu Hf Hg.
  unfold start_viva_session.
  rewrite Hr, Hs, Hu, Hst, Hf, Z.eqb_refl, (generate_fallback _ Hg).
  eexists _, _, _, (new_response db sid (question fallback_question) 1).
  split; [reflexivity|]. cbn [fst snd sessions responses first_question
                             start_response_id].
  split; [reflexivity|]. split; [reflexivity|].
  split; [apply lookup_insert_eq|].
  split; [intros other Ho; now apply lookup_insert_ne|].
  destruct session; repeat split.
Qed.

Lemma start_with_failing_adapter_witness :
  exists db' reply session' turn,
    start_viva_session 1 Sample.alice Sample.down Sample.created = (db', Ok reply) /\
    first_question reply =
      "Can you explain the main concepts from your assignment in your own words?" /\
    start_response_id reply = response_id turn /\
    sessions db' !! 1 = Some session' /\
    (forall other, other <> 1 ->
                   sessions db' !! other = sessions Sample.created !! other) /\
    status session' = IN_PROGRESS /\
    questions_asked session' = 1 /\
    questions_answered session' = 0 /\
    started_at session' = Some 100 /\
    completed_at session' = None /\
    responses db' = (responses Sample.created ++ [turn])%list /\
    turn =
      {| response_id := start_response_id reply;
         viva_session_id := 1;
         question_text :=
           "Can you explain the main concepts from your assignment in your own words?";
         order_index := 1;
         response_text := None; response_audio_path := None;
         response_timestamp := None; response_duration := None;
         confidence_score := None; accuracy_score := None;
         completeness_score := None; ai_feedback := None;
         score := None; max_score := None |}.
Proof.
  apply (start_with_failing_adapter 1 Sample.alice Sample.down Sample.created
           (new_session 1 7 FINAL)).
  - vm_compute. reflexivity.
  - reflexivity.
  - reflexivity.
  - reflexivity.
  - reflexivity.
  - constructor.
Defined.







(** ** Counters and lifecycle along a dialogue *)

Section Invariant.

Context {dbms : Database}.

Implicit Types (db : DB) (sid : Z) (env : Env) (user : User).

Import Spec.

Ltac session_arith :=
  repeat match goal with
         | s : VivaSession |- _ => destruct s
         end;
  unfold Spec.counters_ok in *; simpl in *; subst; simpl in *;
  try lia; try (repeat split; lia).

Lemma create_counters submission kind user db :
  counters_hold db ->
  counters_hold (fst (create_viva_session submission kind user db)).
Proof.
  intros Hdb. unfold create_viva_session.
  destruct (decide _); [|exact Hdb].
  destruct (submissions db !! submission) as [sub|]; [|exact Hdb].
  destruct (negb _); [exact Hdb|].
  destruct (String.eqb _ _); [exact Hdb|]. simpl.
  apply map_Forall_insert_2; [|exact Hdb]. split; reflexivity.
Qed.

Lemma start_counters sid user env db :
  counters_hold db ->
  counters_hold (fst (start_viva_session sid user env db)).
Proof.
  intros Hdb. unfold start_viva_session.
  destruct (decide _); [|exact Hdb].
  destruct (sessions db !! sid) as [session|] eqn:Hs; [|exact Hdb].
  destruct (negb (_ =? _)); [exact Hdb|].
  destruct (bool_decide (status session = SCHEDULED)) eqn:Hst; [|exact Hdb].
  apply bool_decide_eq_true in Hst.
  destruct (fault env); [exact Hdb|]. simpl.
  apply map_Forall_insert_2; [|exact Hdb].
  specialize (Hdb sid session Hs). simpl in Hdb. session_arith.
Qed.

Lemma submit_counters sid (data : VivaResponseCreate) user env db :
  counters_hold db ->
  counters_hold (fst (submit_viva_response sid data user env db)).
Proof.
  intros Hdb. unfold submit_viva_response.
  destruct (decide _); [|exact Hdb].
  destruct (sessions db !! sid) as [session|] eqn:Hs; [|exact Hdb].
  destruct (negb (_ =? _)); [exact Hdb|].
  destruct (bool_decide (status session = IN_PROGRESS)) eqn:Hst; [|exact Hdb].
  apply bool_decide_eq_true in Hst.
  destruct (current_response sid db) as [[i row]|]; [|exact Hdb].
  destruct (flush _ _) as [row'|]; [|exact Hdb].
  pose proof (Hdb sid session Hs) as Hok. simpl in Hok.
  cbn zeta. cbn [negb].
  destruct (_ && _).
  - unfold ask_next. simpl. rewrite insert_insert_eq.
    apply map_Forall_insert_2; [|exact Hdb].
    clear Hs Hdb. session_arith.
  - destruct (end_session_completes sid
                (Set_.questions_answered (questions_answered session + 1) session)
                env
                (answered sid
                   (Set_.questions_answered (questions_answered session + 1)
                      session) i row' db))
      as (s' & t & m & E & _ & Hst' & Hqa & Hqn).
    rewrite E. simpl. rewrite insert_insert_eq.
    apply map_Forall_insert_2; [|exact Hdb].
    unfold Spec.counters_ok in *. rewrite Hst', Hqa, Hqn.
    rewrite Hst in Hok. clear - Hok. destruct session; simpl in *. lia.
Qed.

Lemma handle_counters db (rq : request) :
  is_dialogue rq = true ->
  counters_hold db -> counters_hold (handle db rq).
Proof.
  destruct rq; simpl; try discriminate; intros _.
  - apply create_counters.
  - apply start_counters.
  - apply submit_counters.
Qed.

Lemma run_counters (rqs : list request) db :
  Forall (fun rq => is_dialogue rq = true) rqs ->
  counters_hold db -> counters_hold (run db rqs).
Proof.
  intros Hrqs. revert db.
  induction Hrqs as [|rq rqs Hrq _ IH]; intros db Hdb; simpl; [exact Hdb|].
  apply IH. now apply handle_counters.
Qed.

Lemma counters_ok_le (s : VivaSession) :
  Spec.counters_ok s -> questions_answered s <= questions_asked s.
Proof.
  unfold Spec.counters_ok. destruct (status s); lia.
Qed.

End Invariant.

(** C2. Along every sequence of create, start and respond requests on a
    database that begins without sessions, after each request every
    session has [questions_answered <= questions_asked]. *)
Theorem answered_le_asked {dbms : Database}
    (subs : gmap Z Submission) (rqs : list request) (k : nat)
    (sid : Z) (s : VivaSession) :
  Forall (fun rq => is_dialogue rq = true) rqs ->
  sessions (run (empty_db subs) (take k rqs)) !! sid = Some s ->
  questions_answered s <= questions_asked s.
Proof.
  intros Hrqs Hs. apply counters_ok_le.
  apply (run_counters (take k rqs) (empty_db subs)) in Hs; [exact Hs| |].
  - now apply Forall_take.
  - simpl. apply map_Forall_empty.
Qed.

Lemma answered_le_asked_witness :
  exists s,
    sessions (run (empty_db Sample.subs) (take 3 Sample.dialogue)) !! 1 = Some s /\
    questions_answered s <= questions_asked s.
Proof.
  assert (E : is_Some
                (sessions (run (empty_db Sample.subs) (take 3 Sample.dialogue)) !! 1))
    by (vm_compute; eauto).
  destruct E as [s E]. exists s. split; [exact E|].
  apply (answered_le_asked Sample.subs Sample.dialogue 3 1 s); [|exact E].
  repeat constructor.
Defined.

Section Lifecycle.

Context {dbms : Database}.

Implicit Types (db : DB) (sid : Z) (env : Env) (user : User).

(** Start and respond never move a session backwards. *)
Lemma start_monotone sid0 user env db sid (s : VivaSession) :
  sessions db !! sid = Some s ->
  exists s', sessions (fst (start_viva_session sid0 user env db)) !! sid = Some s' /\
             Spec.rank (status s) <= Spec.rank (status s').
Proof.
  intros Hs. unfold start_viva_session.
  assert (Hsame : exists s', sessions db !! sid = Some s' /\
                             Spec.rank (status s) <= Spec.rank (status s'))
    by (exists s; split; [exact Hs|lia]).
  destruct (decide _); [|exact Hsame].
  destruct (sessions db !! sid0) as [session|] eqn:Hs0; [|exact Hsame].
  destruct (negb (_ =? _)); [exact Hsame|].
  destruct (bool_decide (status session = SCHEDULED)) eqn:Hst; [|exact Hsame].
  apply bool_decide_eq_true in Hst.
  destruct (fault env); [exact Hsame|]. simpl.
  destruct (decide (sid0 = sid)) as [->|Hne].
  - rewrite lookup_insert_eq. eexists; split; [reflexivity|].
    rewrite Hs0 in Hs. injection Hs as <-. rewrite Hst.
    destruct session; simpl. lia.
  - now rewrite lookup_insert_ne.
Qed.

Lemma submit_monotone sid0 (data : VivaResponseCreate) user env db sid
    (s : VivaSession) :
  sessions db !! sid = Some s ->
  exists s',
    sessions (fst (submit_viva_response sid0 data user env db)) !! sid = Some s' /\
    Spec.rank (status s) <= Spec.rank (status s').
Proof.
  intros Hs. unfold submit_viva_response.
  assert (Hsame : exists s', sessions db !! sid = Some s' /\
                             Spec.rank (status s) <= Spec.rank (status s'))
    by (exists s; split; [exact Hs|lia]).
  destruct (decide _); [|exact Hsame].
  destruct (sessions db !! sid0) as [session|] eqn:Hs0; [|exact Hsame].
  destruct (negb (_ =? _)); [exact Hsame|].
  destruct (bool_decide (status session = IN_PROGRESS)) eqn:Hst; [|exact Hsame].
  apply bool_decide_eq_true in Hst.
  destruct (current_response sid0 db) as [[i row]|]; [|exact Hsame].
  destruct (flush _ _) as [row'|]; [|exact Hsame].
  cbn zeta. cbn [negb].
  destruct (_ && _).
  - unfold ask_next. simpl. rewrite insert_insert_eq.
    destruct (decide (sid0 = sid)) as [->|Hne].
    + rewrite lookup_insert_eq. eexists; split; [reflexivity|].
      rewrite Hs0 in Hs. injection Hs as <-.
      destruct session; simpl. lia.
    + now rewrite lookup_insert_ne.
  - destruct (end_session_completes sid0
                (Set_.questions_answered (questions_answered session + 1) session)
                env
                (answered sid0
                   (Set_.questions_answered (questions_answered session + 1)
                      session) i row' db))
      as (s' & t & m & E & _ & Hst' & _).
    rewrite E. simpl. rewrite insert_insert_eq.
    destruct (decide (sid0 = sid)) as [->|Hne].
    + rewrite lookup_insert_eq. eexists; split; [reflexivity|].
      rewrite Hst'. destruct (status s); simpl; lia.
    + now rewrite lookup_insert_ne.
Qed.

(** A respond call on a session in progress with a pending turn whose
    evaluation can be stored ends the session exactly when five
    questions were asked or the next question cannot be built. *)
Lemma submit_decision sid (data : VivaResponseCreate) user env db
    (session : VivaSession) i (row row' : VivaResponse) :
  role user = STUDENT ->
  sessions db !! sid = Some session ->
  student_id session = user_id user ->
  status session = IN_PROGRESS ->
  current_response sid db = Some (i, row) ->
  flush (evaluate_block (evaluation env)) (record_answer data row) = Some row' ->
  exists s',
    sessions (fst (submit_viva_response sid data user env db)) !! sid = Some s' /\
    (status s' = COMPLETED <-> (5 <= questions_asked session \/ fault env = true)).
Proof.
  intros Hr Hs Hu Hst Hc Hf.
  rewrite (submit_step sid data user env db session i row row') by assumption.
  cbn zeta.
  replace (questions_asked
             (Set_.questions_answered (questions_answered session + 1) session))
    with (questions_asked session) by (now destruct session).
  destruct ((questions_asked session <? 5) && negb (fault env)) eqn:E.
  - apply andb_true_iff in E as [E1 E2].
    apply Z.ltb_lt in E1. apply negb_true_iff in E2.
    unfold ask_next. simpl. rewrite lookup_insert_eq.
    eexists; split; [reflexivity|].
    replace (status _) with IN_PROGRESS by (destruct session; simpl in *; congruence).
    split; [discriminate|]. intros [?|?]; [lia|congruence].
  - destruct (end_session_completes sid
                (Set_.questions_answered (questions_answered session + 1) session)
                env
                (answered sid
                   (Set_.questions_answered (questions_answered session + 1)
                      session) i row' db))
      as (s' & t & m & -> & _ & Hst' & _).
    simpl. rewrite lookup_insert_eq. exists s'. split; [reflexivity|].
    split; [|auto]. intros _.
    apply andb_false_iff in E as [E|E].
    + left. apply Z.ltb_ge in E. lia.
    + right. now apply negb_false_iff in E.
Qed.

End Lifecycle.

(** C1, evaluated. With the settings as deployed by default
    ([MAX_VIVA_QUESTIONS] 10, [MIN_VIVA_QUESTIONS] 3) and a healthy
    provider, the session is still in progress with its fifth question
    pending after four answers, and the fifth answer completes it: five
    questions asked, fewer than the configured maximum. *)
Theorem session_ends_after_five_questions :
  MAX_VIVA_QUESTIONS settings = 10 /\
  (exists s, sessions Sample.fifth_pending !! 1 = Some s /\
             status s = IN_PROGRESS /\ questions_asked s = 5) /\
  (exists s, sessions Sample.finished !! 1 = Some s /\
             status s = COMPLETED /\ questions_asked s = 5 /\
             questions_asked s < MAX_VIVA_QUESTIONS settings).
Proof.
  vm_compute. split; [reflexivity|].
  split; eexists; repeat split.
Qed.

(** C3, evaluated. After a started session receives an answer that
    carries no text, the answered turn is scored and still counts as
    pending next to the new turn: two turns of the session are without
    response. Once that session is completed and reopened by an update,
    a further answer is recorded on turn 1 again and replaces its score. *)
Theorem untexted_answer_leaves_two_pending :
  length (Spec.pending 1 Sample.started) = 1%nat /\
  length (Spec.pending 1 Sample.untexted) = 2%nat /\
  map (fun r => (order_index r, is_none (response_text r), is_none (score r)))
      (session_responses 1 Sample.untexted)
  = [(1, true, false); (2, true, true)] /\
  map (fun r => (order_index r, response_text r, option_map Qred (score r)))
      (firstn 1 (session_responses 1 Sample.untexted_finished))
  = [(1, None, Some 8%Q)] /\
  map (fun r => (order_index r, response_text r, option_map Qred (score r)))
      (firstn 1 (session_responses 1 Sample.reanswered))
  = [(1, Some "Again.", Some 7%Q)].
Proof.
  vm_compute. repeat split.
Qed.

(** C4, evaluated. The update request of the session's own student moves
    a completed session back to in progress. *)
Theorem update_reopens_completed_session :
  (exists s, sessions Sample.finished !! 1 = Some s /\ status s = COMPLETED) /\
  (exists db' s',
      update_viva_session 1 Sample.reopen Sample.alice 200 Sample.finished
      = (db', Ok s') /\
      sessions db' !! 1 = Some s' /\
      status s' = IN_PROGRESS /\
      Spec.rank (status s') < Spec.rank COMPLETED).
Proof.
  vm_compute. split; [eexists; split; reflexivity|].
  do 2 eexists. repeat split.
Qed.

(** * Further properties *)

(** ** The adapter on well-formed and on practice payloads *)

Section Payloads.

Lemma validate_strs_accept (l : list string) :
  validate_strs (map JStr l) = Return l.
Proof.
  induction l as [|s l IH]; simpl; [reflexivity|]. now rewrite IH.
Qed.

Lemma validate_strs_shape (l : list json) :
  forallb Spec.is_str l = true -> exists ss, validate_strs l = Return ss.
Proof.
  induction l as [|v l IH]; simpl; [eauto|].
  intros H. apply andb_true_iff in H as [Hv Hl].
  destruct v; try discriminate. destruct (IH Hl) as [ss ->]. simpl. eauto.
Qed.

(** A payload of the expected shape is accepted, with its question text. *)
Lemma parse_question_accept (v : json) :
  Spec.question_shape v = true ->
  exists r kv, parse_question (Parsed v) = Return r /\
               v = JDict kv /\ assoc "question" kv = Some (JStr (question r)).
Proof.
  unfold parse_question, Spec.question_shape.
  destruct v as [| | | | |kv]; simpl; try discriminate.
  unfold subscript.
  destruct (assoc "question" kv) as [[| | |q| |]|] eqn:Hq; simpl;
    try discriminate.
  destruct (assoc "expected_keywords" kv) as [[| | | |kw|]|]; simpl;
    try discriminate.
  destruct (assoc "follow_up_questions" kv) as [[| | | |fu|]|]; simpl;
    try (rewrite andb_false_r; discriminate).
  destruct (assoc "scoring_criteria" kv) as [[| | | | |sc]|]; simpl;
    try (rewrite andb_false_r; discriminate).
  intros H. rewrite andb_true_r in H. apply andb_true_iff in H as [Hkw Hfu].
  destruct (validate_strs_shape _ Hkw) as [kws ->].
  destruct (validate_strs_shape _ Hfu) as [fus ->]. simpl.
  eexists _, kv. repeat split. exact Hq.
Qed.

Lemma parse_each_accept (rs : list AIQuestionResponse) :
  Practice.parse_each (map question_json rs) = Return rs.
Proof.
  induction rs as [|r rs IH]; simpl; [reflexivity|].
  unfold parse_question at 1. simpl.
  rewrite !validate_strs_accept. simpl. rewrite IH. simpl.
  now destruct r.
Qed.

Lemma parse_each_reject (l : list json) :
  Exists (fun q => Spec.question_shape q = false) l ->
  exists e, Practice.parse_each l = Raise e.
Proof.
  induction 1 as [q l Hq|q l _ IH]; simpl.
  - destruct (parse_question_reject q Hq) as [e ->]. eauto.
  - destruct (parse_question (Parsed q)); simpl; [|eauto].
    destruct IH as [e ->]. eauto.
Qed.

End Payloads.

(** X1. The adapter reads back what the wire format writes: a provider
    reply that is the JSON object of a question is returned as that
    question, for every question. *)
Theorem generate_reads_question_json (r : AIQuestionResponse) :
  generate_viva_question (Parsed (question_json r)) = r.
Proof.
  unfold generate_viva_question, parse_question. simpl.
  rewrite !validate_strs_accept. simpl. now destruct r.
Qed.

(** X2. The [try] block of [generate_viva_question] accepts exactly the
    payloads of the expected shape (an object whose [question] is a string,
    whose keywords and follow-ups are lists of strings and whose criteria
    are an object), and an accepted payload yields its own question text;
    every other payload raises. *)
Theorem question_accepted_iff_shape (v : json) :
  ((exists r, parse_question (Parsed v) = Return r) <->
   Spec.question_shape v = true) /\
  (forall r, parse_question (Parsed v) = Return r ->
             Py.subscript v "question" = Return (JStr (question r))).
Proof.
  split; [split|].
  - intros [r Hr]. destruct (Spec.question_shape v) eqn:E; [reflexivity|].
    destruct (parse_question_reject v E) as [e He]. congruence.
  - intros H. destruct (parse_question_accept v H) as (r & _ & Hr & _). eauto.
  - intros r Hr. destruct (Spec.question_shape v) eqn:E.
    + destruct (parse_question_accept v E) as (r' & kv & Hr' & -> & Hq).
      rewrite Hr in Hr'. injection Hr' as <-. simpl. now rewrite Hq.
    + destruct (parse_question_reject v E) as [e He]. congruence.
Qed.

Lemma question_accepted_iff_shape_witness :
  Py.subscript (question_json fallback_question) "question"
  = Return (JStr (question fallback_question)).
Proof.
  apply (proj2 (question_accepted_iff_shape (question_json fallback_question))
           fallback_question).
  reflexivity.
Defined.

(** X3. When the provider fails, the practice questions are the fallback
    ones: as many as requested (none for a count of zero or less), the
    question at position [i] being "Practice question i+1: ..."; without a
    count ([None]) the fallback itself raises. *)
Theorem practice_fallback (e : exn) :
  (forall n : Z,
      exists qs, Practice.generate_mock_questions (Failed e) (Some n) = Return qs /\
                 length qs = Z.to_nat n /\
                 forall i : nat, (i < Z.to_nat n)%nat ->
                   qs !! i = Some (Practice.practice_question (Z.of_nat i))) /\
  Practice.generate_mock_questions (Failed e) None = Raise TypeError.
Proof.
  split; [|reflexivity].
  intros n. eexists. split; [reflexivity|]. split.
  - now rewrite length_map, length_seqZ.
  - intros i Hi. rewrite list_lookup_fmap, lookup_seqZ_lt by lia.
    simpl. f_equal.
Qed.

Lemma practice_fallback_witness :
  exists qs,
    Practice.generate_mock_questions (Failed APIError) (Some 3) = Return qs /\
    length qs = 3%nat /\
    qs !! 2%nat = Some (Practice.practice_question 2).
Proof.
  destruct (proj1 (practice_fallback APIError) 3) as (qs & H & Hl & Hi).
  exists qs. split; [exact H|]. split; [exact Hl|].
  apply (Hi 2%nat). simpl. lia.
Defined.

(** X4. The provider's practice questions are taken all or none: a list
    of question objects is returned as it is, one question per element in
    order, whatever count was requested; a list with one element that has
    not the shape of a question is discarded whole for the fallback
    questions. *)
Theorem practice_all_or_none :
  (forall (rs : list AIQuestionResponse) (count : option Z),
      Practice.generate_mock_questions
        (Parsed (JList (map question_json rs))) count = Return rs) /\
  (forall (l : list json) (n : Z),
      Exists (fun q => Spec.question_shape q = false) l ->
      Practice.generate_mock_questions (Parsed (JList l)) (Some n)
      = Return (map Practice.practice_question (seqZ 0 n))).
Proof.
  split.
  - intros rs count. unfold Practice.generate_mock_questions. simpl.
    now rewrite parse_each_accept.
  - intros l n H. unfold Practice.generate_mock_questions. simpl.
    destruct (parse_each_reject l H) as [e ->]. reflexivity.
Qed.

Lemma practice_all_or_none_witness :
  Practice.generate_mock_questions
    (Parsed (JList [question_json fallback_question; JNull])) (Some 2)
  = Return (map Practice.practice_question (seqZ 0 2)).
Proof.
  apply (proj2 practice_all_or_none).
  apply Exists_cons_tl, Exists_cons_hd. reflexivity.
Defined.

(** X5. The practice handler refuses an inactive assignment with 400
    whatever the provider does, and absorbs a failure of the provider only
    when a count is given: for a student and an active assignment it then
    answers with that many fallback questions, and with an explicit null
    count it answers 500. *)
Theorem practice_handler_on_failure
    (request : Practice.MockVivaRequest) (user : User)
    (assignments : gmap Z Practice.Assignment) (a : Practice.Assignment) :
  role user = STUDENT ->
  assignments !! Practice.assignment_id request = Some a ->
  (Practice.is_active a = false ->
   forall u : upstream,
     Practice.mock_questions request user u assignments =
       Err (HTTP_400_BAD_REQUEST "Assignment is not active")) /\
  (Practice.is_active a = true ->
   forall e : exn,
     Practice.mock_questions request user (Failed e) assignments =
       match Practice.question_count request with
       | Some n => Ok (map Practice.practice_question (seqZ 0 n))
       | None => Err (HTTP_500_INTERNAL_SERVER_ERROR
                        "Failed to generate mock questions")
       end).
Proof.
  intros Hr Ha. unfold Practice.mock_questions. rewrite Hr, Ha. simpl.
  split; intros -> ?; simpl; [reflexivity|].
  now destruct (Practice.question_count request).
Qed.

Lemma practice_handler_on_failure_witness :
  Practice.mock_questions
    {| Practice.assignment_id := 2;
       Practice.difficulty_preference := None;
       Practice.question_count := Some 3 |}
    Sample.alice Sample.a_question Fixture.assignments
  = Err (HTTP_400_BAD_REQUEST "Assignment is not active") /\
  Practice.mock_questions (Fixture.practice None) Sample.alice
    (Failed APIError) Fixture.assignments
  = Err (HTTP_500_INTERNAL_SERVER_ERROR "Failed to generate mock questions").
Proof.
  split.
  - apply (practice_handler_on_failure
             {| Practice.assignment_id := 2;
                Practice.difficulty_preference := None;
                Practice.question_count := Some 3 |}
             Sample.alice Fixture.assignments {| Practice.is_active := false |}).
    + reflexivity.
    + vm_compute. reflexivity.
    + reflexivity.
  - apply (practice_handler_on_failure (Fixture.practice None) Sample.alice
             Fixture.assignments {| Practice.is_active := true |}).
    + reflexivity.
    + vm_compute. reflexivity.
    + reflexivity.
Defined.

(** ** The stored score *)

Section StoredScore.

Context {dbms : Database}.

Lemma get_dict (kv : list (string * json)) (k : string) (d : json) :
  Py.get (JDict kv) k d = Return (default d (assoc k kv)).
Proof. simpl. now destruct (assoc k kv). Qed.

(** What the evaluation block assigns to [score] and [max_score] for an
    object: ten times the overall score, or the default on an exception. *)
Lemma evaluate_block_dict (kv : list (string * json)) :
  d_score (evaluate_block (Parsed (JDict kv))) =
    Some (try_except (times10 (default (JNum 0) (assoc "overall_score" kv)))
            (JNum 7)) /\
  d_max_score (evaluate_block (Parsed (JDict kv))) = Some (JNum 10).
Proof.
  unfold evaluate_block, try_evaluation, evaluate_viva_response.
  cbn [loads try_except]. rewrite !get_dict. cbn [mbind py_bind Py.bind].
  destruct (times10 _); simpl; auto.
Qed.

Lemma flush_scores w row row' :
  flush w row = Some row' ->
  float_column (score row) (d_score w) = Some (score row') /\
  float_column (max_score row) (d_max_score w) = Some (max_score row').
Proof.
  unfold flush. intros H.
  destruct (float_column (confidence_score row) _); simpl in H; [|discriminate].
  destruct (float_column (accuracy_score row) _); simpl in H; [|discriminate].
  destruct (float_column (completeness_score row) _); simpl in H; [|discriminate].
  destruct (text_column _ _); simpl in H; [|discriminate].
  destruct (float_column (score row) _); simpl in H; [|discriminate].
  destruct (float_column (max_score row) _); simpl in H; [|discriminate].
  injection H as <-. auto.
Qed.

(** A number within the range of the floats is stored as the nearest
    float; whatever is stored for a value other than [None] is a number. *)
Lemma float_column_number (old : option Q) (q x : Q) :
  finite q = true -> double q = x ->
  float_column old (Some (JNum q)) = Some (Some x).
Proof. intros Hq <-. cbn [float_column]. now rewrite Hq. Qed.

Lemma float_column_set (old x : option Q) (v : json) :
  v <> JNull -> float_column old (Some v) = Some x -> is_Some x.
Proof.
  intros Hv Hx. destruct v as [|b|q|s|l|d]; [congruence| | | | |];
    cbn [float_column] in Hx.
  2:{ destruct (finite q); [injection Hx as <-; eauto|].
      destruct (cast_float _); [injection Hx as <-; eauto|discriminate Hx]. }
  all: destruct (cast_float _); [injection Hx as <-; eauto|discriminate Hx].
Qed.

End StoredScore.



(** ** Tables under update *)

Section Tables.

Context {A : Type}.
Implicit Types (P : A -> bool) (l : list A).

Lemma filter_insert_out P l (i : nat) (x y : A) :
  l !! i = Some x -> P x = false -> P y = false ->
  List.filter P (<[i := y]> l) = List.filter P l.
Proof.
  revert i. induction l as [|a l IH]; intros [|i] Hi Hx Hy; simpl in *;
    try discriminate.
  - injection Hi as ->. now rewrite Hx, Hy.
  - now rewrite (IH i Hi Hx Hy).
Qed.

Lemma filter_insert_count P l (i : nat) (x y : A) :
  l !! i = Some x ->
  (length (List.filter P (<[i := y]> l)) + (if P x then 1 else 0)
   = length (List.filter P l) + (if P y then 1 else 0))%nat.
Proof.
  revert i. induction l as [|a l IH]; intros [|i] Hi; simpl in *;
    try discriminate.
  - injection Hi as ->. destruct (P x), (P y); simpl; lia.
  - specialize (IH i Hi). destruct (P a); simpl; lia.
Qed.

Lemma map_filter_insert {B} (f : A -> B) P l (i : nat) (x y : A) :
  l !! i = Some x -> P y = P x -> f y = f x ->
  map f (List.filter P (<[i := y]> l)) = map f (List.filter P l).
Proof.
  revert i. induction l as [|a l IH]; intros [|i] Hi HP Hf; simpl in *;
    try discriminate.
  - injection Hi as ->. rewrite HP. destruct (P x); simpl; now rewrite ?Hf.
  - destruct (P a); simpl; now rewrite (IH i Hi HP Hf).
Qed.

Lemma filter_filter_andb P (Q : A -> bool) l :
  List.filter Q (List.filter P l) = List.filter (fun a => P a && Q a) l.
Proof.
  induction l as [|a l IH]; simpl; [reflexivity|].
  destruct (P a); simpl; [|exact IH]. destruct (Q a); now rewrite IH.
Qed.

Lemma filter_nil_forall P l :
  List.filter P l = [] <-> forall a, a ∈ l -> P a = false.
Proof.
  induction l as [|a l IH]; simpl.
  - split; [|reflexivity]. intros _ a Ha. now apply elem_of_nil in Ha.
  - destruct (P a) eqn:E.
    + split; [discriminate|]. intros H.
      specialize (H a (list_elem_of_here a l)). congruence.
    + rewrite IH. split.
      * intros H b Hb. apply elem_of_cons in Hb as [->|Hb]; auto.
      * intros H b Hb. apply H. now apply elem_of_cons; right.
Qed.

End Tables.

Section Pending.

Implicit Types (db : DB) (sid : Z) (row : VivaResponse).

Lemma pending_is_pending sid db :
  Spec.pending sid db = List.filter (is_pending sid) (responses db).
Proof.
  unfold Spec.pending, session_responses. apply filter_filter_andb.
Qed.

(** The query scans the whole table: it finds nothing only if nothing is
    pending, and what it finds has the greatest order index. *)
Lemma pending_from_none sid (rs : list VivaResponse) (k : nat) best :
  pending_from sid rs k best = None <->
  best = None /\ List.filter (is_pending sid) rs = [].
Proof.
  revert k best. induction rs as [|r rs IH]; intros k best; simpl.
  - tauto.
  - rewrite IH. fold (is_pending sid r).
    destruct (is_pending sid r).
    + split; [|intros [_ H]; discriminate H].
      intros [H _]. destruct best as [[j b]|]; [|discriminate].
      destruct (order_index b <? order_index r); discriminate.
    + tauto.
Qed.

Lemma pending_from_greatest sid (rs : list VivaResponse) (k : nat) best i row :
  pending_from sid rs k best = Some (i, row) ->
  (forall r, r ∈ List.filter (is_pending sid) rs ->
             order_index r <= order_index row) /\
  (forall j b, best = Some (j, b) -> order_index b <= order_index row).
Proof.
  revert k best. induction rs as [|r rs IH]; intros k best H; simpl in *.
  - subst best. split.
    + intros r Hr. now apply elem_of_nil in Hr.
    + intros j b [= <- <-]. lia.
  - fold (is_pending sid r) in *. apply IH in H as [Hrs Hbest].
    destruct (is_pending sid r) eqn:E.
    + assert (Hr : order_index r <= order_index row).
      { destruct best as [[j b]|].
        - destruct (order_index b <? order_index r) eqn:L.
          + now apply (Hbest k r).
          + apply Z.ltb_ge in L. specialize (Hbest j b eq_refl). lia.
        - now apply (Hbest k r). }
      split.
      * intros r' Hr'. apply elem_of_cons in Hr' as [->|Hr']; auto.
      * intros j b ->. destruct (order_index b <? order_index r) eqn:L.
        -- apply Z.ltb_lt in L. lia.
        -- now apply (Hbest j b).
    + split; [exact Hrs|exact Hbest].
Qed.

End Pending.

(** X7. The query for the current question finds a turn exactly when the
    session has a turn without response text, and the turn found is one of
    them with the greatest order index. *)
Theorem current_response_is_latest_pending (sid : Z) (db : DB) :
  (current_response sid db = None <-> Spec.pending sid db = []) /\
  (forall i row, current_response sid db = Some (i, row) ->
     row ∈ Spec.pending sid db /\
     forall r, r ∈ Spec.pending sid db -> order_index r <= order_index row).
Proof.
  rewrite pending_is_pending. unfold current_response. split.
  - rewrite pending_from_none. tauto.
  - intros i row H. split.
    + destruct (current_response_found sid db i row H) as (Hi & Hs & Ht).
      apply list_elem_of_In, filter_In. split.
      * apply list_elem_of_In, list_elem_of_lookup. eauto.
      * unfold is_pending. rewrite Ht. apply andb_true_iff.
        split; [now apply Z.eqb_eq|reflexivity].
    + now apply (pending_from_greatest sid (responses db) 0%nat None i row).
Qed.

Lemma current_response_is_latest_pending_witness :
  exists i row,
    current_response 1 Sample.untexted = Some (i, row) /\
    row ∈ Spec.pending 1 Sample.untexted /\
    forall r, r ∈ Spec.pending 1 Sample.untexted ->
              order_index r <= order_index row.
Proof.
  assert (E : exists p, current_response 1 Sample.untexted = Some p)
    by (vm_compute; eauto).
  destruct E as [[i row] E]. exists i, row. split; [exact E|].
  exact (proj2 (current_response_is_latest_pending 1 Sample.untexted) i row E).
Defined.

(** ** The cases of a request *)

Section Cases.

Context {dbms : Database}.

Implicit Types (db : DB) (sid : Z) (env : Env) (user : User).
Implicit Types (session : VivaSession) (row : VivaResponse).

Lemma create_cases submission kind user db :
  (exists e, create_viva_session submission kind user db = (db, Err e)) \/
  create_viva_session submission kind user db =
    ({| sessions :=
          <[session_seq db := new_session submission (user_id user) kind]>
            (sessions db);
        session_seq := session_seq db + 1;
        responses := responses db;
        submissions := submissions db |},
     Ok (session_seq db)).
Proof.
  unfold create_viva_session.
  destruct (decide _); [|eauto].
  destruct (submissions db !! submission); [|eauto].
  destruct (negb _); [eauto|].
  destruct (String.eqb _ _); [eauto|]. now right.
Qed.

Lemma start_cases sid user env db :
  (exists e, start_viva_session sid user env db = (db, Err e)) \/
  (exists session,
      sessions db !! sid = Some session /\
      role user = STUDENT /\
      student_id session = user_id user /\
      status session = SCHEDULED /\
      fault env = false /\
      start_viva_session sid user env db =
        ({| sessions :=
              <[sid := Set_.questions_asked 1
                         (Set_.started_at (Some (now env))
                            (Set_.status IN_PROGRESS session))]> (sessions db);
            session_seq := session_seq db;
            responses :=
              responses db
              ++ [new_response db sid
                    (question (generate_viva_question (generation env))) 1];
            submissions := submissions db |},
         Ok {| first_question :=
                 question (generate_viva_question (generation env));
               start_response_id := Z.of_nat (length (responses db)) + 1 |})).
Proof.
  unfold start_viva_session.
  destruct (decide _) as [Hr|]; [|eauto].
  destruct (sessions db !! sid) as [session|]; [|eauto].
  destruct (student_id session =? user_id user) eqn:Hu; [|simpl; eauto].
  apply Z.eqb_eq in Hu. simpl.
  destruct (bool_decide (status session = SCHEDULED)) eqn:Hst; [|simpl; eauto].
  apply bool_decide_eq_true in Hst. simpl.
  destruct (fault env) eqn:Hf; [eauto|].
  right. exists session. auto 10.
Qed.

Lemma end_session_result sid session env db :
  exists s',
    Aggregator.aggregate (session_responses sid db)
      (Set_.completed_at (Some (now env)) (Set_.status COMPLETED session))
    = Return s' /\
    end_session sid session env db =
      (with_sessions (<[sid := s']> (sessions db)) db,
       Ok (SessionComplete
             (Aggregator.sum_if score (session_responses sid db))
             (Aggregator.sum_if max_score (session_responses sid db)))).
Proof.
  unfold end_session.
  destruct (aggregate_returns (session_responses sid db)
              (Set_.completed_at (Some (now env)) (Set_.status COMPLETED session)))
    as (s' & Hs' & _).
  exists s'. now rewrite Hs'.
Qed.

Lemma submit_cases sid (data : VivaResponseCreate) user env db :
  (exists e, submit_viva_response sid data user env db = (db, Err e)) \/
  (exists session i row row',
      role user = STUDENT /\
      sessions db !! sid = Some session /\
      student_id session = user_id user /\
      status session = IN_PROGRESS /\
      current_response sid db = Some (i, row) /\
      flush (evaluate_block (evaluation env)) (record_answer data row)
      = Some row' /\
      ((questions_asked session < 5 /\ fault env = false /\
        submit_viva_response sid data user env db =
          ask_next sid (counted session) env
            (answered sid (counted session) i row' db)) \/
       ((5 <= questions_asked session \/ fault env = true) /\
        submit_viva_response sid data user env db =
          end_session sid (counted session) env
            (answered sid (counted session) i row' db)))).
Proof.
  destruct (submit_viva_response sid data user env db) as [db' [reply|e]] eqn:H.
  - right.
    destruct (submit_inv _ _ _ _ _ _ _ H)
      as (session & i & row & row' & Hr & Hs & Hu & Hst & Hc & Hf).
    exists session, i, row, row'. do 6 (split; [assumption|]).
    rewrite <- H.
    rewrite (submit_step sid data user env db session i row row') by assumption.
    cbn zeta.
    replace (questions_asked (counted session)) with (questions_asked session)
      by (now destruct session).
    destruct (questions_asked session <? 5) eqn:L; simpl.
    + apply Z.ltb_lt in L. destruct (fault env); simpl; [right|left]; auto.
    + apply Z.ltb_ge in L. right. auto.
  - unfold submit_viva_response in H.
    destruct (decide _); [|left; injection H as <- <-; eauto].
    destruct (sessions db !! sid) as [session|];
      [|left; injection H as <- <-; eauto].
    destruct (negb (_ =? _)); [left; injection H as <- <-; eauto|].
    destruct (negb (bool_decide _)); [left; injection H as <- <-; eauto|].
    destruct (current_response sid db) as [[i row]|];
      [|left; injection H as <- <-; eauto].
    destruct (flush _ _) as [row'|]; [|left; injection H as <- <-; eauto].
    cbn zeta in H. destruct (_ && _).
    + unfold ask_next in H. discriminate H.
    + destruct (end_session_result sid (counted session) env
                  (answered sid (counted session) i row' db)) as (s' & _ & E).
      rewrite E in H. discriminate H.
Qed.

Lemma update_cases sid (d : VivaSessionUpdate) user (t : Z) db :
  (exists e, update_viva_session sid d user t db = (db, Err e)) \/
  (exists session,
      sessions db !! sid = Some session /\
      ((role user <> STUDENT \/ student_id session = user_id user) /\
       integer_column (u_duration_seconds d) = true) /\
      update_viva_session sid d user t db =
        (with_sessions
           (<[sid := update_timestamps d t (update_fields d session)]>
              (sessions db)) db,
         Ok (update_timestamps d t (update_fields d session)))).
Proof.
  unfold update_viva_session.
  destruct (sessions db !! sid) as [session|]; [|eauto].
  destruct (integer_column (u_duration_seconds d)) eqn:Hd.
  2:{ destruct (_ && _); eauto. }
  destruct (bool_decide (role user = STUDENT)) eqn:Hr; simpl.
  - destruct (student_id session =? user_id user) eqn:Hu; simpl; [|eauto].
    apply Z.eqb_eq in Hu. right. exists session. auto.
  - apply bool_decide_eq_false in Hr. right. exists session. auto.
Qed.

End Cases.

(** X8. A request that is answered with an error stores nothing: the
    database after it is the database before it, for create, update, start
    and respond alike. *)
Theorem failed_request_changes_nothing {dbms : Database}
    (db : DB) (rq : request) (e : HTTPException) :
  failure db rq = Some e -> handle db rq = db.
Proof.
  destruct rq as [sub kind u|sid d u t|sid u env|sid d u env];
    unfold failure, error_of; simpl; intros H.
  - destruct (create_cases sub kind u db) as [[e' ->]|E]; [reflexivity|].
    rewrite E in H. discriminate H.
  - destruct (update_cases sid d u t db) as [[e' ->]|(s & _ & _ & E)];
      [reflexivity|].
    rewrite E in H. discriminate H.
  - destruct (start_cases sid u env db)
      as [[e' ->]|(s & _ & _ & _ & _ & _ & E)]; [reflexivity|].
    rewrite E in H. discriminate H.
  - destruct (submit_cases sid d u env db)
      as [[e' ->]|(s & i & row & row' & _ & _ & _ & _ & _ & _ & E)];
      [reflexivity|].
    destruct E as [(_ & _ & E)|(_ & E)]; rewrite E in H.
    + discriminate H.
    + destruct (end_session_result sid (counted s) env
                  (answered sid (counted s) i row' db)) as (s' & _ & E').
      rewrite E' in H. discriminate H.
Qed.

Lemma failed_request_changes_nothing_witness :
  handle Sample.finished
    (Respond 1 Fixture.spoken Sample.alice Sample.healthy)
  = Sample.finished.
Proof.
  apply (failed_request_changes_nothing Sample.finished
           (Respond 1 Fixture.spoken Sample.alice Sample.healthy)
           (HTTP_400_BAD_REQUEST "Session is not in progress")).
  vm_compute. reflexivity.
Defined.

(** X9. A respond call on a session in progress by its student, when no
    turn of the session is without response text, is refused with 400
    ("No pending question to respond to") and stores nothing; when some
    turn is without response text the call is not refused that way. *)
Theorem respond_without_pending_turn {dbms : Database}
    (sid : Z) (data : VivaResponseCreate) (user : User) (env : Env) (db : DB)
    (session : VivaSession) :
  sessions db !! sid = Some session ->
  status session = IN_PROGRESS ->
  role user = STUDENT ->
  student_id session = user_id user ->
  (Spec.pending sid db = [] <->
   submit_viva_response sid data user env db
   = (db, Err (HTTP_400_BAD_REQUEST "No pending question to respond to"))).
Proof.
  intros Hs Hst Hr Hu.
  rewrite pending_is_pending.
  pose proof (pending_from_none sid (responses db) 0%nat None) as Hnone.
  fold (current_response sid db) in Hnone.
  unfold submit_viva_response. rewrite Hr, Hs, Hu, Hst, Z.eqb_refl. simpl.
  destruct (current_response sid db) as [[i row]|] eqn:Hc.
  - split.
    + intros H. assert (@None (nat * VivaResponse) = None /\
                        List.filter (is_pending sid) (responses db) = [])
        as H' by auto.
      apply Hnone in H'. discriminate H'.
    + destruct (flush _ _) as [row'|]; [|discriminate].
      cbn zeta. destruct (_ && _).
      * unfold ask_next. discriminate.
      * destruct (end_session_result sid (counted session) env
                    (answered sid (counted session) i row' db)) as (s' & _ & ->).
        discriminate.
  - split; [reflexivity|]. intros _. now apply Hnone.
Qed.

Lemma respond_without_pending_turn_witness :
  Spec.pending 1 Fixture.opened = [] <->
  submit_viva_response 1 Fixture.spoken Sample.alice Sample.healthy Fixture.opened
  = (Fixture.opened,
     Err (HTTP_400_BAD_REQUEST "No pending question to respond to")).
Proof.
  apply (respond_without_pending_turn 1 Fixture.spoken Sample.alice
           Sample.healthy Fixture.opened
           (Set_.started_at (Some 150)
              (Set_.status IN_PROGRESS (new_session 1 7 FINAL)))).
  - vm_compute. reflexivity.
  - reflexivity.
  - reflexivity.
  - reflexivity.
Defined.

(** X10. Only the student a session belongs to can start it or answer in
    it: a start or respond request that changes the database comes from a
    user with the student role whose id is the session's [student_id]. *)
Theorem only_the_student_moves_a_session {dbms : Database}
    (db : DB) (rq : request) (sid : Z) (user : User) :
  addressed rq = Some (sid, user) ->
  handle db rq <> db ->
  exists session,
    sessions db !! sid = Some session /\
    role user = STUDENT /\ student_id session = user_id user.
Proof.
  destruct rq as [sub kind u|sid' d u t|sid' u env|sid' d u env];
    simpl; try discriminate; intros [= -> ->] Hne.
  - destruct (start_cases sid user env db)
      as [[e E]|(s & Hs & Hr & Hu & _)]; [|eauto].
    rewrite E in Hne. now contradiction Hne.
  - destruct (submit_cases sid d user env db)
      as [[e E]|(s & i & row & row' & Hr & Hs & Hu & _)]; [|eauto].
    rewrite E in Hne. now contradiction Hne.
Qed.

Lemma only_the_student_moves_a_session_witness :
  exists session,
    sessions Sample.created !! 1 = Some session /\
    role Sample.alice = STUDENT /\ student_id session = user_id Sample.alice.
Proof.
  apply (only_the_student_moves_a_session Sample.created
           (Start 1 Sample.alice Sample.healthy) 1 Sample.alice).
  - reflexivity.
  - intros H. apply (f_equal (fun db => length (responses db))) in H.
    vm_compute in H. discriminate H.
Defined.

(** ** The effect of a request on the two tables *)

Section Effects.

Context {dbms : Database}.

Implicit Types (db : DB) (sid : Z) (env : Env) (user : User).
Implicit Types (session : VivaSession) (row : VivaResponse).

Lemma flush_identity w row row' :
  flush w row = Some row' ->
  response_id row' = response_id row /\
  viva_session_id row' = viva_session_id row /\
  question_text row' = question_text row /\
  order_index row' = order_index row /\
  response_text row' = response_text row.
Proof.
  unfold flush. intros H.
  repeat match type of H with
         | context [float_column ?o ?v] => destruct (float_column o v); simpl in H
         | context [text_column ?o ?v] => destruct (text_column o v); simpl in H
         end; try discriminate.
  injection H as <-. auto.
Qed.

Lemma start_effect sid user env db :
  fst (start_viva_session sid user env db) = db \/
  exists session,
    sessions db !! sid = Some session /\
    role user = STUDENT /\
    student_id session = user_id user /\
    status session = SCHEDULED /\
    sessions (fst (start_viva_session sid user env db)) =
      <[sid := Set_.questions_asked 1
                 (Set_.started_at (Some (now env))
                    (Set_.status IN_PROGRESS session))]> (sessions db) /\
    session_seq (fst (start_viva_session sid user env db)) = session_seq db /\
    submissions (fst (start_viva_session sid user env db)) = submissions db /\
    responses (fst (start_viva_session sid user env db)) =
      (responses db
       ++ [new_response db sid
             (question (generate_viva_question (generation env))) 1])%list.
Proof.
  destruct (start_cases sid user env db)
    as [[e ->]|(s & Hs & Hr & Hu & Hst & Hf & ->)]; [now left|].
  right. exists s. simpl. auto 10.
Qed.

(** A respond call that stores something replaces the pending row by the
    answered one and then either appends the next turn or completes the
    session. *)
Lemma submit_effect sid (data : VivaResponseCreate) user env db :
  fst (submit_viva_response sid data user env db) = db \/
  exists session i row row' s' tail,
    sessions db !! sid = Some session /\
    role user = STUDENT /\
    student_id session = user_id user /\
    status session = IN_PROGRESS /\
    current_response sid db = Some (i, row) /\
    flush (evaluate_block (evaluation env)) (record_answer data row) = Some row' /\
    sessions (fst (submit_viva_response sid data user env db)) =
      <[sid := s']> (sessions db) /\
    session_seq (fst (submit_viva_response sid data user env db)) = session_seq db /\
    submissions (fst (submit_viva_response sid data user env db)) = submissions db /\
    responses (fst (submit_viva_response sid data user env db)) =
      (<[i := row']> (responses db) ++ tail)%list /\
    ((questions_asked session < 5 /\ fault env = false /\
      s' = Set_.questions_asked (questions_asked session + 1) (counted session) /\
      tail = [new_response (answered sid (counted session) i row' db) sid
                (question (generate_viva_question (generation env)))
                (questions_asked session + 1)]) \/
     ((5 <= questions_asked session \/ fault env = true) /\
      tail = [] /\
      Aggregator.aggregate
        (session_responses sid (answered sid (counted session) i row' db))
        (Set_.completed_at (Some (now env))
           (Set_.status COMPLETED (counted session))) = Return s')).
Proof.
  destruct (submit_cases sid data user env db)
    as [[e ->]|(s & i & row & row' & Hr & Hs & Hu & Hst & Hc & Hf & E)];
    [now left|].
  right. destruct E as [(Hlt & Hfa & ->)|(Hge & ->)].
  - exists s, i, row, row'. do 2 eexists.
    do 6 (split; [eassumption|]). unfold ask_next. simpl.
    rewrite insert_insert_eq.
    replace (questions_asked (counted s)) with (questions_asked s)
      by (now destruct s).
    split; [reflexivity|]. do 3 (split; [reflexivity|]).
    left. auto.
  - destruct (end_session_result sid (counted s) env
                (answered sid (counted s) i row' db)) as (s' & Hs' & ->).
    exists s, i, row, row', s', []. do 6 (split; [assumption|]). simpl.
    rewrite insert_insert_eq, app_nil_r.
    do 4 (split; [reflexivity|]). right. auto.
Qed.

Lemma session_responses_app sid db (rs tail : list VivaResponse) :
  List.filter (fun r => viva_session_id r =? sid) (rs ++ tail) =
  (List.filter (fun r => viva_session_id r =? sid) rs
   ++ List.filter (fun r => viva_session_id r =? sid) tail)%list.
Proof. apply List.filter_app. Qed.

End Effects.

(** ** What a session keeps once it has come to a state *)

Section Persistence.

Context {dbms : Database}.

Implicit Types (db : DB) (sid : Z) (rq : request) (rqs : list request).

Lemma keys_handle db rq :
  keys_below_sequence db -> keys_below_sequence (handle db rq).
Proof.
  intros Hk.
  assert (Hins : forall db' k0 s0,
             is_Some (sessions db !! k0) ->
             sessions db' = <[k0 := s0]> (sessions db) ->
             session_seq db' = session_seq db ->
             keys_below_sequence db').
  { intros db' k0 s0 [s1 Hs1] Hm Hseq k s Hs. rewrite Hseq.
    rewrite Hm in Hs. destruct (decide (k0 = k)) as [<-|Hne].
    - exact (Hk _ _ Hs1).
    - rewrite lookup_insert_ne in Hs by exact Hne. exact (Hk _ _ Hs). }
  destruct rq as [sub kind u|k0 d u t|k0 u env|k0 d u env]; simpl.
  - destruct (create_cases sub kind u db) as [[e ->]|E]; [exact Hk|rewrite E].
    intros k s Hs. simpl in *.
    destruct (decide (session_seq db = k)) as [<-|Hne]; [lia|].
    rewrite lookup_insert_ne in Hs by exact Hne.
    pose proof (Hk _ _ Hs). lia.
  - destruct (update_cases k0 d u t db) as [[e ->]|(s0 & Hs0 & _ & ->)];
      [exact Hk|].
    eapply Hins; [eexists; exact Hs0|reflexivity|reflexivity].
  - destruct (start_effect k0 u env db)
      as [->|(s0 & Hs0 & _ & _ & _ & Hm & Hseq & _)]; [exact Hk|].
    eapply Hins; [eexists; exact Hs0|exact Hm|exact Hseq].
  - destruct (submit_effect k0 d u env db)
      as [->|(s0 & i & row & row' & s' & tail & Hs0 & _ & _ & _ & _ & _
              & Hm & Hseq & _)]; [exact Hk|].
    eapply Hins; [eexists; exact Hs0|exact Hm|exact Hseq].
Qed.

Lemma keys_run rqs db :
  keys_below_sequence db -> keys_below_sequence (run db rqs).
Proof.
  revert db. induction rqs as [|rq rqs IH]; intros db Hk; [exact Hk|].
  apply IH, keys_handle, Hk.
Qed.

Lemma keys_empty (subs : gmap Z Submission) : keys_below_sequence (empty_db subs).
Proof. intros k s Hs. simpl in Hs. now rewrite lookup_empty in Hs. Qed.

(** Create, start and respond keep a session, its student, and the state
    it has come to. *)
Lemma reached_handle db rq sid (student : Z) (st : VivaSessionStatus) :
  keys_below_sequence db ->
  is_dialogue rq = true ->
  has_reached sid student st db ->
  has_reached sid student st (handle db rq).
Proof.
  intros Hk Hd (s & Hs & Hstu & Hrank).
  assert (Hsame : has_reached sid student st db) by (exists s; auto).
  destruct rq as [sub kind u|k0 d u t|k0 u env|k0 d u env]; simpl;
    [|discriminate Hd| |].
  - destruct (create_cases sub kind u db) as [[e ->]|E]; [exact Hsame|rewrite E].
    exists s. simpl. split; [|auto].
    rewrite lookup_insert_ne; [exact Hs|].
    pose proof (Hk _ _ Hs). lia.
  - destruct (start_effect k0 u env db)
      as [->|(s0 & Hs0 & _ & _ & Hst0 & Hm & _)]; [exact Hsame|].
    unfold has_reached. rewrite Hm.
    destruct (decide (k0 = sid)) as [->|Hne].
    + rewrite lookup_insert_eq. eexists. split; [reflexivity|].
      rewrite Hs in Hs0. injection Hs0 as <-.
      rewrite Hst0 in Hrank. destruct s; simpl in *. split; [exact Hstu|].
      destruct st; simpl in *; lia.
    + rewrite lookup_insert_ne by exact Hne. exists s. auto.
  - destruct (submit_effect k0 d u env db)
      as [->|(s0 & i & row & row' & s' & tail & Hs0 & _ & _ & Hst0 & _ & _
              & Hm & _ & _ & _ & Hcase)]; [exact Hsame|].
    unfold has_reached. rewrite Hm.
    destruct (decide (k0 = sid)) as [->|Hne].
    + rewrite lookup_insert_eq. exists s'. split; [reflexivity|].
      rewrite Hs in Hs0. injection Hs0 as <-.
      destruct Hcase as [(_ & _ & -> & _)|(_ & _ & Hagg)].
      * destruct s; simpl in *. auto.
      * destruct (aggregate_returns
                    (session_responses sid (answered sid (counted s) i row' db))
                    (Set_.completed_at (Some (now env))
                       (Set_.status COMPLETED (counted s))))
          as (s'' & Hs'' & _ & _ & Hst'' & Hid & _).
        rewrite Hagg in Hs''. injection Hs'' as <-.
        rewrite Hid, Hst''. destruct s; simpl in *. split; [exact Hstu|].
        destruct st; simpl; lia.
    + rewrite lookup_insert_ne by exact Hne. exists s. auto.
Qed.

Lemma reached_run rqs db sid (student : Z) (st : VivaSessionStatus) :
  keys_below_sequence db ->
  Forall (fun rq => is_dialogue rq = true) rqs ->
  has_reached sid student st db ->
  has_reached sid student st (run db rqs).
Proof.
  revert db. induction rqs as [|rq rqs IH]; intros db Hk Hd Hr; [exact Hr|].
  apply Forall_cons in Hd as [Hd Hds]. simpl.
  apply IH; [now apply keys_handle|exact Hds|now apply reached_handle].
Qed.

End Persistence.

(** X11. A session is started once: after a successful start on a database
    reached from an empty one by any requests, and along every further
    sequence of create, start and respond requests (without an update in
    between), every further start of the session by the same user is
    refused with 400 ("Session is not in scheduled state") and stores
    nothing. *)
Theorem second_start_is_refused {dbms : Database}
    (subs : gmap Z Submission) (before after : list request)
    (sid : Z) (user : User) (env env' : Env) (db' : DB) (reply : StartReply) :
  Forall (fun rq => is_dialogue rq = true) after ->
  start_viva_session sid user env (run (empty_db subs) before) = (db', Ok reply) ->
  start_viva_session sid user env' (run db' after)
  = (run db' after,
     Err (HTTP_400_BAD_REQUEST "Session is not in scheduled state")).
Proof.
  intros Hafter Hstart.
  set (db := run (empty_db subs) before) in *.
  assert (Hk : keys_below_sequence db) by apply keys_run, keys_empty.
  assert (Hk' : keys_below_sequence db').
  { pose proof (keys_handle db (Start sid user env) Hk) as Hk'.
    simpl in Hk'. now rewrite Hstart in Hk'. }
  destruct (start_cases sid user env db)
    as [[e E]|(s & Hs & Hr & Hu & Hst & Hf & E)]; [congruence|].
  rewrite E in Hstart. injection Hstart as <- _.
  destruct (reached_run after _ sid (user_id user) IN_PROGRESS Hk' Hafter)
    as (s' & Hs' & Hu' & Hrank).
  { eexists. simpl. split; [apply lookup_insert_eq|].
    destruct s; simpl in *. split; [exact Hu|lia]. }
  unfold start_viva_session at 1.
  rewrite Hr, Hs'. cbn [decide_rel]. 
  destruct (decide (STUDENT = STUDENT)) as [_|Hne]; [|congruence].
  rewrite Hu', Z.eqb_refl. cbn [negb].
  destruct (status s') eqn:Hst'; simpl in Hrank; [lia| |]; reflexivity.
Qed.

Lemma second_start_is_refused_witness :
  start_viva_session 1 Sample.alice Sample.down Sample.fifth_pending
  = (Sample.fifth_pending,
     Err (HTTP_400_BAD_REQUEST "Session is not in scheduled state")).
Proof.
  unfold Sample.fifth_pending.
  apply (second_start_is_refused Sample.subs [Create 1 FINAL Sample.alice]
           (repeat (Respond 1 (Sample.answer (Some "Because.")) Sample.alice
                      Sample.healthy) 4)
           1 Sample.alice Sample.healthy Sample.down Sample.started
           {| first_question := "Why is the sort stable?";
              start_response_id := 1 |}).
  - repeat constructor.
  - vm_compute. reflexivity.
Defined.

(** X12. A completed session takes no more answers: after a respond call
    that completes the session, on a database reached from an empty one
    by any requests, and along every further sequence of create, start
    and respond requests (without an update in between), every further
    respond call of the same user on it is refused with 400 ("Session is
    not in progress") and stores nothing. *)
Theorem respond_after_completion_is_refused {dbms : Database}
    (subs : gmap Z Submission) (before after : list request)
    (sid : Z) (data data' : VivaResponseCreate) (user : User) (env env' : Env)
    (db' : DB) (t m : Q) :
  Forall (fun rq => is_dialogue rq = true) after ->
  submit_viva_response sid data user env (run (empty_db subs) before)
  = (db', Ok (SessionComplete t m)) ->
  submit_viva_response sid data' user env' (run db' after)
  = (run db' after, Err (HTTP_400_BAD_REQUEST "Session is not in progress")).
Proof.
  intros Hafter Hsub.
  set (db := run (empty_db subs) before) in *.
  assert (Hk : keys_below_sequence db) by apply keys_run, keys_empty.
  assert (Hk' : keys_below_sequence db').
  { pose proof (keys_handle db (Respond sid data user env) Hk) as Hk'.
    simpl in Hk'. now rewrite Hsub in Hk'. }
  destruct (submit_cases sid data user env db)
    as [[e E]|(s & i & row & row' & Hr & Hs & Hu & Hst & Hc & Hf & E)];
    [congruence|].
  destruct E as [(_ & _ & E)|(_ & E)]; rewrite E in Hsub.
  { unfold ask_next in Hsub. discriminate Hsub. }
  destruct (end_session_result sid (counted s) env
              (answered sid (counted s) i row' db)) as (s1 & Hagg & E').
  rewrite E' in Hsub. injection Hsub as <- _ _.
  destruct (aggregate_returns
              (session_responses sid (answered sid (counted s) i row' db))
              (Set_.completed_at (Some (now env))
                 (Set_.status COMPLETED (counted s))))
    as (s2 & Hs2 & _ & _ & Hst2 & Hid & _).
  rewrite Hagg in Hs2. injection Hs2 as <-.
  destruct (reached_run after _ sid (user_id user) COMPLETED Hk' Hafter)
    as (s' & Hs' & Hu' & Hrank).
  { exists s1. simpl. split; [apply lookup_insert_eq|].
    rewrite Hid, Hst2. destruct s; simpl in *. split; [exact Hu|lia]. }
  unfold submit_viva_response at 1.
  rewrite Hr, Hs'.
  destruct (decide (STUDENT = STUDENT)) as [_|Hne]; [|congruence].
  rewrite Hu', Z.eqb_refl. cbn [negb].
  destruct (status s') eqn:Hst'; simpl in Hrank; [lia|lia|]; reflexivity.
Qed.

Lemma respond_after_completion_is_refused_witness :
  submit_viva_response 1 (Sample.answer None) Sample.alice Sample.down
    (run Sample.finished [Start 1 Sample.alice Sample.healthy])
  = (run Sample.finished [Start 1 Sample.alice Sample.healthy],
     Err (HTTP_400_BAD_REQUEST "Session is not in progress")).
Proof.
  apply (respond_after_completion_is_refused Sample.subs
           ([Create 1 FINAL Sample.alice; Start 1 Sample.alice Sample.healthy]
            ++ repeat (Respond 1 Fixture.spoken Sample.alice Sample.healthy) 4)
           [Start 1 Sample.alice Sample.healthy]
           1 Fixture.spoken (Sample.answer None)
           Sample.alice Sample.healthy Sample.down
           Sample.finished 40%Q 50%Q).
  - repeat constructor.
  - vm_compute. reflexivity.
Defined.

Lemma request_frame {dbms : Database}
    (db : DB) (rq : request) (sid : Z) (user : User) (other : Z) :
  addressed rq = Some (sid, user) ->
  other <> sid ->
  sessions (handle db rq) !! other = sessions db !! other /\
  session_responses other (handle db rq) = session_responses other db.
Proof.
  intros Ha Hne.
  assert (Hoff : forall r, viva_session_id r = sid ->
                           (viva_session_id r =? other) = false)
    by (intros r <-; apply Z.eqb_neq; congruence).
  assert (Hoff' : (sid =? other) = false) by (apply Z.eqb_neq; congruence).
  destruct rq as [sub kind u|sid' d u t|sid' u env|sid' d u env];
    simpl in *; try discriminate; injection Ha as -> ->.
  - destruct (start_effect sid user env db)
      as [->|(s & _ & _ & _ & _ & Hss & _ & _ & Hrs)]; [auto|].
    unfold session_responses. rewrite Hss, Hrs.
    rewrite lookup_insert_ne by congruence.
    rewrite List.filter_app. simpl. rewrite Hoff'.
    now rewrite app_nil_r.
  - destruct (submit_effect sid d user env db)
      as [->|(s & i & row & row' & s' & tail & _ & _ & _ & _ & Hc & Hf
              & Hss & _ & _ & Hrs & Hcase)]; [auto|].
    unfold session_responses. rewrite Hss, Hrs.
    rewrite lookup_insert_ne by congruence. split; [reflexivity|].
    destruct (current_response_found _ _ _ _ Hc) as (Hi & Hsid & _).
    destruct (flush_identity _ _ _ Hf) as (_ & Hsid' & _). simpl in Hsid'.
    rewrite List.filter_app.
    rewrite (filter_insert_out _ _ i row row' Hi)
      by (apply Hoff; congruence).
    destruct Hcase as [(_ & _ & _ & ->)|(_ & -> & _)]; simpl.
    + rewrite Hoff'. now rewrite app_nil_r.
    + now rewrite app_nil_r.
Qed.



Section Rows.

Context {dbms : Database}.

Implicit Types (db : DB) (row : VivaResponse).

Lemma handle_keeps_rows db (rq : request) (j : nat) (r : VivaResponse) :
  responses db !! j = Some r ->
  exists r',
    responses (handle db rq) !! j = Some r' /\
    response_id r' = response_id r /\
    viva_session_id r' = viva_session_id r /\
    question_text r' = question_text r /\
    order_index r' = order_index r /\
    (is_Some (response_text r) -> r' = r).
Proof.
  intros Hj.
  assert (Hsame : exists r',
             responses db !! j = Some r' /\
             response_id r' = response_id r /\
             viva_session_id r' = viva_session_id r /\
             question_text r' = question_text r /\
             order_index r' = order_index r /\
             (is_Some (response_text r) -> r' = r))
    by (exists r; auto 10).
  destruct rq as [sub kind u|sid d u t|sid u env|sid d u env]; simpl.
  - destruct (create_cases sub kind u db) as [[e ->]| ->]; exact Hsame.
  - destruct (update_cases sid d u t db) as [[e ->]|(s & _ & _ & ->)];
      exact Hsame.
  - destruct (start_effect sid u env db)
      as [->|(s & _ & _ & _ & _ & _ & _ & _ & ->)]; [exact Hsame|].
    rewrite lookup_app_l by (now apply lookup_lt_Some in Hj). exact Hsame.
  - destruct (submit_effect sid d u env db)
      as [->|(s & i & row & row' & s' & tail & _ & _ & _ & _ & Hc & Hf
              & _ & _ & _ & -> & _)]; [exact Hsame|].
    pose proof (lookup_lt_Some _ _ _ Hj) as Hlt.
    rewrite lookup_app_l by (now rewrite length_insert).
    destruct (current_response_found _ _ _ _ Hc) as (Hi & _ & Ht).
    destruct (flush_identity _ _ _ Hf) as (H1 & H2 & H3 & H4 & _).
    destruct (decide (i = j)) as [->|Hne].
    + rewrite list_lookup_insert_eq by assumption.
      rewrite Hj in Hi. injection Hi as <-.
      exists row'. split; [reflexivity|]. simpl in *.
      do 4 (split; [assumption|]).
      rewrite Ht. intros [x Hx]. discriminate Hx.
    + rewrite list_lookup_insert_ne by assumption. exact Hsame.
Qed.

End Rows.

(** X14. Turns are never removed, moved or rewritten: after any sequence
    of requests (updates included) a row of the response table is at the
    same position with the same id, session, question text and order
    index, and a row that has a response text is still exactly the same
    row. *)
Theorem rows_are_kept {dbms : Database}
    (db : DB) (rqs : list request) (j : nat) (r : VivaResponse) :
  responses db !! j = Some r ->
  exists r',
    responses (run db rqs) !! j = Some r' /\
    response_id r' = response_id r /\
    viva_session_id r' = viva_session_id r /\
    question_text r' = question_text r /\
    order_index r' = order_index r /\
    (is_Some (response_text r) -> r' = r).
Proof.
  revert db r. induction rqs as [|rq rqs IH]; intros db r Hj; simpl.
  - exists r. auto 10.
  - destruct (handle_keeps_rows db rq j r Hj)
      as (r1 & Hj1 & Hid & Hs & Hq & Ho & Ht).
    destruct (IH (handle db rq) r1 Hj1) as (r2 & Hj2 & Hid2 & Hs2 & Hq2 & Ho2 & Ht2).
    exists r2. split; [exact Hj2|].
    repeat split; try congruence.
    intros Hsome. specialize (Ht Hsome). subst r1. auto.
Qed.

Lemma rows_are_kept_witness :
  exists r,
    responses Sample.finished !! 0%nat = Some r /\
    responses
      (run Sample.finished
         [Update 1 Sample.reopen Sample.alice 200;
          Respond 1 (Sample.answer (Some "Again.")) Sample.alice Sample.down])
      !! 0%nat = Some r.
Proof.
  assert (E : is_Some (responses Sample.finished !! 0%nat))
    by (vm_compute; eauto).
  destruct E as [r E]. exists r. split; [exact E|].
  destruct (rows_are_kept Sample.finished
              [Update 1 Sample.reopen Sample.alice 200;
               Respond 1 (Sample.answer (Some "Again.")) Sample.alice Sample.down]
              0%nat r E) as (r' & H & _ & _ & _ & _ & Ht).
  rewrite H. f_equal. apply Ht.
  vm_compute in E. injection E as <-. simpl. eauto.
Defined.

(** ** Dialogues keep the tables consistent *)

Section Consistency.

Context {dbms : Database}.

Import Dialogue.
Implicit Types (db : DB) (sid : Z) (env : Env) (user : User).

Lemma consistent_create submission kind user db :
  consistent db -> consistent (fst (create_viva_session submission kind user db)).
Proof.
  intros [Hk Ho Hl Ht].
  destruct (create_cases submission kind user db) as [[e ->]| ->];
    [now constructor|]. simpl.
  assert (Hfresh : sessions db !! session_seq db = None).
  { destruct (sessions db !! session_seq db) eqn:E; [|reflexivity].
    apply Hk in E. lia. }
  constructor; simpl.
  - intros sid s. rewrite lookup_insert. destruct (decide _) as [<-|].
    + intros _. lia.
    + intros H. apply Hk in H. lia.
  - intros sid. rewrite lookup_insert. destruct (decide _); [discriminate|].
    apply Ho.
  - intros sid s. rewrite lookup_insert. destruct (decide _).
    + intros [= <-]. unfold lifecycle_ok. simpl. repeat split.
    + apply Hl.
  - intros sid s. rewrite lookup_insert. destruct (decide _) as [<-|].
    + intros [= <-]. unfold turns_ok.
      change (session_responses (session_seq db) _)
        with (session_responses (session_seq db) db).
      now rewrite (Ho _ Hfresh).
    + apply Ht.
Qed.

Lemma consistent_start sid user env db :
  consistent db -> consistent (fst (start_viva_session sid user env db)).
Proof.
  intros [Hk Ho Hl Ht].
  destruct (start_effect sid user env db)
    as [->|(s & Hs & _ & _ & Hst & Hss & Hseq & _ & Hrs)]; [now constructor|].
  pose proof (Hl sid s Hs) as Hls. unfold lifecycle_ok in Hls.
  rewrite Hst in Hls. destruct Hls as (Ha & Hn & Hsa & Hca & Htot & Hmax).
  pose proof (Ht sid s Hs) as Hts. unfold turns_ok in Hts.
  rewrite Ha in Hts. apply map_eq_nil in Hts.
  assert (Hother : forall x, x <> sid ->
            session_responses x (fst (start_viva_session sid user env db))
            = session_responses x db).
  { intros x Hx.
    apply (request_frame db (Start sid user env) sid user x eq_refl Hx). }
  constructor.
  - intros x s0. rewrite Hss, Hseq, lookup_insert. destruct (decide _) as [<-|].
    + intros _. now apply (Hk sid s).
    + apply Hk.
  - intros x. rewrite Hss, lookup_insert. destruct (decide _); [discriminate|].
    intros H. rewrite Hother by congruence. now apply Ho.
  - intros x s0. rewrite Hss, lookup_insert. destruct (decide _).
    + intros [= <-]. unfold lifecycle_ok.
      destruct s; simpl in *. subst. repeat split; eauto; lia.
    + apply Hl.
  - intros x s0. rewrite Hss, lookup_insert. destruct (decide _) as [<-|Hx].
    + intros [= <-]. unfold turns_ok, session_responses.
      rewrite Hrs, List.filter_app. fold (session_responses sid db).
      rewrite Hts. simpl. rewrite Z.eqb_refl. now destruct s.
    + intros H. unfold turns_ok. rewrite Hother by congruence. now apply Ht.
Qed.

Lemma consistent_submit sid (data : VivaResponseCreate) user env db :
  consistent db ->
  consistent (fst (submit_viva_response sid data user env db)).
Proof.
  intros [Hk Ho Hl Ht].
  destruct (submit_effect sid data user env db)
    as [->|(s & i & row & row' & s' & tail & Hs & _ & _ & Hst & Hc & Hf
            & Hss & Hseq & _ & Hrs & Hcase)]; [now constructor|].
  pose proof (Hl sid s Hs) as Hls. unfold lifecycle_ok in Hls.
  rewrite Hst in Hls. destruct Hls as (Hn & Ha & Ha5 & Hsa & Hca & Htot & Hmax).
  pose proof (Ht sid s Hs) as Hts. unfold turns_ok in Hts.
  destruct (current_response_found _ _ _ _ Hc) as (Hi & Hsid & _).
  destruct (flush_identity _ _ _ Hf) as (_ & Hsid' & _ & Hoi & _).
  simpl in Hsid', Hoi.
  assert (Hother : forall x, x <> sid ->
            session_responses x (fst (submit_viva_response sid data user env db))
            = session_responses x db).
  { intros x Hx.
    apply (request_frame db (Respond sid data user env) sid user x eq_refl Hx). }
  assert (Hmap :
            map order_index
              (session_responses sid
                 (fst (submit_viva_response sid data user env db)))
            = (seqZ 1 (questions_asked s)
               ++ map order_index
                    (List.filter (fun r => viva_session_id r =? sid) tail))%list).
  { unfold session_responses. rewrite Hrs, List.filter_app, map_app.
    rewrite (map_filter_insert order_index _ _ i row row' Hi)
      by congruence.
    fold (session_responses sid db). now rewrite Hts. }
  assert (Hlife : lifecycle_ok s' /\
                  map order_index
                    (List.filter (fun r => viva_session_id r =? sid) tail)
                  = seqZ (1 + questions_asked s)
                      (questions_asked s' - questions_asked s)).
  { destruct Hcase as [(Hlt & _ & -> & ->)|(_ & -> & Hagg)].
    - split.
      + unfold lifecycle_ok. destruct s; simpl in *. subst.
        repeat split; eauto; lia.
      + simpl. rewrite Z.eqb_refl. simpl.
        replace (questions_asked _ - questions_asked s) with 1
          by (destruct s; simpl; lia).
        rewrite seqZ_cons, seqZ_nil by lia. f_equal. lia.
    - destruct (aggregate_returns
                  (session_responses sid (answered sid (counted s) i row' db))
                  (Set_.completed_at (Some (now env))
                     (Set_.status COMPLETED (counted s))))
        as (s'' & Hs'' & Htt & Hmm & Hst'' & _ & Hqa & Hqn & Hsta & Hcomp).
      rewrite Hagg in Hs''. injection Hs'' as <-.
      split.
      + unfold lifecycle_ok. rewrite Hst'', Hqa, Hqn, Hsta, Hcomp, Htt, Hmm.
        destruct s; simpl in *. subst. repeat split; eauto; lia.
      + simpl. rewrite Hqa.
        replace (questions_asked _ - questions_asked s) with 0
          by (destruct s; simpl; lia).
        now rewrite seqZ_nil by lia. }
  destruct Hlife as [Hlife Htail].
  constructor.
  - intros x s0. rewrite Hss, Hseq, lookup_insert. destruct (decide _) as [<-|].
    + intros _. now apply (Hk sid s).
    + apply Hk.
  - intros x. rewrite Hss, lookup_insert. destruct (decide _); [discriminate|].
    intros H. rewrite Hother by congruence. now apply Ho.
  - intros x s0. rewrite Hss, lookup_insert. destruct (decide _).
    + now intros [= <-].
    + apply Hl.
  - intros x s0. rewrite Hss, lookup_insert. destruct (decide _) as [<-|Hx].
    + intros [= <-]. unfold turns_ok. rewrite Hmap, Htail.
      assert (questions_asked s <= questions_asked s').
      { destruct Hcase as [(_ & _ & -> & _)|(_ & _ & Hagg)].
        - destruct s; simpl; lia.
        - destruct (aggregate_returns
                      (session_responses sid
                         (answered sid (counted s) i row' db))
                      (Set_.completed_at (Some (now env))
                         (Set_.status COMPLETED (counted s))))
            as (s'' & Hs'' & _ & _ & _ & _ & Hqa & _).
          rewrite Hagg in Hs''. injection Hs'' as <-. rewrite Hqa.
          destruct s; simpl; lia. }
      rewrite <- seqZ_app by lia. f_equal. lia.
    + intros H. unfold turns_ok. rewrite Hother by congruence. now apply Ht.
Qed.

Lemma consistent_handle db (rq : request) :
  is_dialogue rq = true -> consistent db -> consistent (handle db rq).
Proof.
  destruct rq; simpl; try discriminate; intros _.
  - apply consistent_create.
  - apply consistent_start.
  - apply consistent_submit.
Qed.

Lemma consistent_run (rqs : list request) db :
  Forall (fun rq => is_dialogue rq = true) rqs ->
  consistent db -> consistent (run db rqs).
Proof.
  intros Hrqs. revert db.
  induction Hrqs as [|rq rqs Hrq _ IH]; intros db Hdb; simpl; [exact Hdb|].
  apply IH. now apply consistent_handle.
Qed.

Lemma consistent_empty (subs : gmap Z Submission) : consistent (empty_db subs).
Proof.
  constructor; simpl; try (intros sid s H; now rewrite lookup_empty in H).
  reflexivity.
Qed.

End Consistency.

(** X15. Along every sequence of create, start and respond requests on a
    database that begins without sessions, no session is ever asked more
    than five questions; a session in progress has exactly one more
    question asked than answered, and a scheduled or completed session as
    many asked as answered (none for a scheduled one, at least one for a
    completed one). *)
Theorem dialogue_counters {dbms : Database}
    (subs : gmap Z Submission) (rqs : list request) (sid : Z) (s : VivaSession) :
  Forall (fun rq => is_dialogue rq = true) rqs ->
  sessions (run (empty_db subs) rqs) !! sid = Some s ->
  0 <= questions_answered s /\
  questions_asked s <= 5 /\
  match status s with
  | SCHEDULED => questions_asked s = 0 /\ questions_answered s = 0
  | IN_PROGRESS => questions_asked s = questions_answered s + 1
  | COMPLETED => questions_asked s = questions_answered s /\ 1 <= questions_asked s
  end.
Proof.
  intros Hrqs Hs.
  pose proof (Dialogue.lifecycles _
                (consistent_run rqs _ Hrqs (consistent_empty subs)) sid s Hs) as H.
  unfold Dialogue.lifecycle_ok in H.
  destruct (status s); intuition lia.
Qed.

Lemma dialogue_counters_witness :
  exists s,
    sessions (run (empty_db Sample.subs) Fixture.interview) !! 1 = Some s /\
    0 <= questions_answered s /\
    questions_asked s <= 5 /\
    match status s with
    | SCHEDULED => questions_asked s = 0 /\ questions_answered s = 0
    | IN_PROGRESS => questions_asked s = questions_answered s + 1
    | COMPLETED =>
        questions_asked s = questions_answered s /\ 1 <= questions_asked s
    end.
Proof.
  assert (E : is_Some (sessions (run (empty_db Sample.subs) Fixture.interview) !! 1))
    by (vm_compute; eauto).
  destruct E as [s E]. exists s. split; [exact E|].
  apply (dialogue_counters Sample.subs Fixture.interview 1 s); [|exact E].
  repeat constructor.
Defined.

(** X16. Along every sequence of create, start and respond requests on a
    database that begins without sessions, the turns of a session are
    numbered without gap or repetition: in table order their order indices
    are 1, 2, ..., [questions_asked], so the session has as many turns as
    questions asked. *)
Theorem dialogue_order_indices {dbms : Database}
    (subs : gmap Z Submission) (rqs : list request) (sid : Z) (s : VivaSession) :
  Forall (fun rq => is_dialogue rq = true) rqs ->
  sessions (run (empty_db subs) rqs) !! sid = Some s ->
  map order_index (session_responses sid (run (empty_db subs) rqs))
  = seqZ 1 (questions_asked s) /\
  length (session_responses sid (run (empty_db subs) rqs))
  = Z.to_nat (questions_asked s).
Proof.
  intros Hrqs Hs.
  pose proof (Dialogue.turns _
                (consistent_run rqs _ Hrqs (consistent_empty subs)) sid s Hs) as H.
  unfold Dialogue.turns_ok in H. split; [exact H|].
  rewrite <- (length_map order_index), H. apply length_seqZ.
Qed.

Lemma dialogue_order_indices_witness :
  exists s,
    sessions (run (empty_db Sample.subs) Sample.dialogue) !! 1 = Some s /\
    map order_index
      (session_responses 1 (run (empty_db Sample.subs) Sample.dialogue))
    = seqZ 1 (questions_asked s) /\
    length (session_responses 1 (run (empty_db Sample.subs) Sample.dialogue))
    = Z.to_nat (questions_asked s).
Proof.
  assert (E : is_Some (sessions (run (empty_db Sample.subs) Sample.dialogue) !! 1))
    by (vm_compute; eauto).
  destruct E as [s E]. exists s. split; [exact E|].
  apply (dialogue_order_indices Sample.subs Sample.dialogue 1 s); [|exact E].
  repeat constructor.
Defined.

(** X17. Along every sequence of create, start and respond requests on a
    database that begins without sessions, the timestamps and totals of a
    session follow its state: [started_at] is set exactly when the session
    is not scheduled any more, [completed_at] and [total_score] are set
    exactly when it is completed, and [max_possible_score] is unset before
    that. *)
Theorem dialogue_timestamps {dbms : Database}
    (subs : gmap Z Submission) (rqs : list request) (sid : Z) (s : VivaSession) :
  Forall (fun rq => is_dialogue rq = true) rqs ->
  sessions (run (empty_db subs) rqs) !! sid = Some s ->
  (is_Some (started_at s) <-> status s <> SCHEDULED) /\
  (is_Some (completed_at s) <-> status s = COMPLETED) /\
  (is_Some (total_score s) <-> status s = COMPLETED) /\
  (is_Some (max_possible_score s) -> status s = COMPLETED).
Proof.
  intros Hrqs Hs.
  pose proof (Dialogue.lifecycles _
                (consistent_run rqs _ Hrqs (consistent_empty subs)) sid s Hs) as H.
  unfold Dialogue.lifecycle_ok in H.
  assert (Hnone : forall A, ~ is_Some (@None A))
    by (intros A [x Hx]; discriminate).
  destruct (status s).
  - destruct H as (_ & _ & -> & -> & -> & ->).
    repeat split; try congruence; intros Hx; now apply Hnone in Hx.
  - destruct H as (_ & _ & _ & Hst & -> & -> & ->).
    repeat split; try congruence; intros Hx; now apply Hnone in Hx.
  - destruct H as (_ & _ & Hst & Hc & Ht & _).
    repeat split; congruence.
Qed.

Lemma dialogue_timestamps_witness :
  exists s,
    sessions (run (empty_db Sample.subs) Fixture.interview) !! 1 = Some s /\
    (is_Some (started_at s) <-> status s <> SCHEDULED) /\
    (is_Some (completed_at s) <-> status s = COMPLETED) /\
    (is_Some (total_score s) <-> status s = COMPLETED) /\
    (is_Some (max_possible_score s) -> status s = COMPLETED).
Proof.
  assert (E : is_Some (sessions (run (empty_db Sample.subs) Fixture.interview) !! 1))
    by (vm_compute; eauto).
  destruct E as [s E]. exists s. split; [exact E|].
  apply (dialogue_timestamps Sample.subs Fixture.interview 1 s); [|exact E].
  repeat constructor.
Defined.

(** ** The single pending turn *)

Section SinglePending.

Context {dbms : Database}.

Import Dialogue.
Implicit Types (db : DB) (sid : Z) (env : Env) (user : User).

Lemma texted_is_dialogue (rq : request) :
  is_texted rq = true -> is_dialogue rq = true.
Proof. now destruct rq. Qed.

Lemma pending_of_responses sid db db' :
  session_responses sid db' = session_responses sid db ->
  Spec.pending sid db' = Spec.pending sid db.
Proof. unfold Spec.pending. now intros ->. Qed.

Lemma single_pending_create submission kind user db :
  single_pending db ->
  single_pending (fst (create_viva_session submission kind user db)).
Proof.
  intros [Hc Hp].
  constructor; [now apply consistent_create|].
  destruct (create_cases submission kind user db) as [[e ->]| ->];
    [exact Hp|]. simpl.
  intros sid s. rewrite lookup_insert. destruct (decide _) as [<-|].
  - intros [= <-]. unfold pending_ok. simpl.
    assert (Hfresh : sessions db !! session_seq db = None).
    { destruct (sessions db !! session_seq db) eqn:E; [|reflexivity].
      apply (keys_below_seq _ Hc) in E. lia. }
    unfold Spec.pending.
    change (session_responses (session_seq db) _)
      with (session_responses (session_seq db) db).
    now rewrite (no_orphans _ Hc _ Hfresh).
  - apply Hp.
Qed.

Lemma single_pending_start sid user env db :
  single_pending db ->
  single_pending (fst (start_viva_session sid user env db)).
Proof.
  intros [Hc Hp].
  constructor; [now apply consistent_start|].
  destruct (start_effect sid user env db)
    as [->|(s & Hs & _ & _ & Hst & Hss & _ & _ & Hrs)]; [exact Hp|].
  pose proof (Hp sid s Hs) as Hps. unfold pending_ok in Hps.
  rewrite Hst in Hps. rewrite pending_is_pending in Hps.
  intros x s0. rewrite Hss, lookup_insert. destruct (decide _) as [<-|Hx].
  - intros [= <-]. unfold pending_ok.
    replace (status _) with IN_PROGRESS by (now destruct s).
    rewrite pending_is_pending, Hrs, List.filter_app, Hps. simpl.
    unfold is_pending. simpl. rewrite Z.eqb_refl. simpl.
    eexists. split; [reflexivity|]. now destruct s.
  - intros H. unfold pending_ok.
    rewrite (pending_of_responses x db).
    + now apply Hp.
    + apply (request_frame db (Start sid user env) sid user x eq_refl).
      congruence.
Qed.

Lemma single_pending_submit sid (data : VivaResponseCreate) user env db :
  is_none (c_response_text data) = false ->
  single_pending db ->
  single_pending (fst (submit_viva_response sid data user env db)).
Proof.
  intros Htext [Hc Hp].
  constructor; [now apply consistent_submit|].
  destruct (submit_effect sid data user env db)
    as [->|(s & i & row & row' & s' & tail & Hs & _ & _ & Hst & Hcur & Hf
            & Hss & _ & _ & Hrs & Hcase)]; [exact Hp|].
  pose proof (Hp sid s Hs) as Hps. unfold pending_ok in Hps.
  rewrite Hst in Hps. destruct Hps as (r & Hr & _).
  rewrite pending_is_pending in Hr.
  destruct (current_response_found _ _ _ _ Hcur) as (Hi & Hsid & Ht).
  destruct (flush_identity _ _ _ Hf) as (_ & Hsid' & _ & _ & Ht').
  simpl in Hsid', Ht'.
  assert (Hgone : List.filter (is_pending sid) (<[i := row']> (responses db)) = []).
  { pose proof (filter_insert_count (is_pending sid) (responses db) i row row' Hi)
      as Hn.
    rewrite Hr in Hn. unfold is_pending in Hn at 2 3.
    rewrite Hsid', Hsid, Ht, Ht', Z.eqb_refl, Htext in Hn. simpl in Hn.
    destruct (List.filter (is_pending sid) (<[i := row']> (responses db)));
      [reflexivity|simpl in Hn; lia]. }
  intros x s0. rewrite Hss, lookup_insert. destruct (decide _) as [<-|Hx].
  - intros [= <-]. unfold pending_ok.
    rewrite pending_is_pending, Hrs, List.filter_app, Hgone. simpl.
    destruct Hcase as [(_ & _ & -> & ->)|(_ & -> & Hagg)].
    + replace (status _) with IN_PROGRESS
        by (destruct s; simpl in *; congruence).
      simpl. unfold is_pending. simpl. rewrite Z.eqb_refl. simpl.
      eexists. split; [reflexivity|]. now destruct s.
    + destruct (aggregate_returns
                  (session_responses sid (answered sid (counted s) i row' db))
                  (Set_.completed_at (Some (now env))
                     (Set_.status COMPLETED (counted s))))
        as (s'' & Hs'' & _ & _ & Hst'' & _).
      rewrite Hagg in Hs''. injection Hs'' as <-. rewrite Hst''.
      now destruct s.
  - intros H. unfold pending_ok.
    rewrite (pending_of_responses x db).
    + now apply Hp.
    + apply (request_frame db (Respond sid data user env) sid user x eq_refl).
      congruence.
Qed.

Lemma single_pending_run (rqs : list request) db :
  Forall (fun rq => is_texted rq = true) rqs ->
  single_pending db -> single_pending (run db rqs).
Proof.
  intros Hrqs. revert db.
  induction Hrqs as [|rq rqs Hrq _ IH]; intros db Hdb; simpl; [exact Hdb|].
  apply IH. destruct rq as [sub kind u|k d u t|k u env|k d u env]; simpl in *.
  - now apply single_pending_create.
  - discriminate.
  - now apply single_pending_start.
  - apply single_pending_submit; [|exact Hdb].
    now apply negb_true_iff in Hrq.
Qed.

Lemma single_pending_empty (subs : gmap Z Submission) :
  single_pending (empty_db subs).
Proof.
  constructor; [apply consistent_empty|].
  intros sid s H. simpl in H. now rewrite lookup_empty in H.
Qed.

End SinglePending.

(** X18. As long as every answer carries a response text, a session has at
    most one turn without response: along every sequence of create, start
    and such respond requests on a database that begins without sessions, a
    session in progress has exactly one pending turn, the last one asked
    (its order index is [questions_asked]), and a scheduled or completed
    session has none. *)
Theorem texted_dialogue_has_one_pending_turn {dbms : Database}
    (subs : gmap Z Submission) (rqs : list request) (sid : Z) (s : VivaSession) :
  Forall (fun rq => is_texted rq = true) rqs ->
  sessions (run (empty_db subs) rqs) !! sid = Some s ->
  match status s with
  | IN_PROGRESS =>
      exists r, Spec.pending sid (run (empty_db subs) rqs) = [r] /\
                order_index r = questions_asked s
  | _ => Spec.pending sid (run (empty_db subs) rqs) = []
  end.
Proof.
  intros Hrqs Hs.
  exact (Dialogue.pendings _
           (single_pending_run rqs _ Hrqs (single_pending_empty subs)) sid s Hs).
Qed.

Lemma texted_dialogue_has_one_pending_turn_witness :
  exists r,
    Spec.pending 1 (run (empty_db Sample.subs) (take 3 Sample.dialogue)) = [r] /\
    order_index r = 2.
Proof.
  apply (texted_dialogue_has_one_pending_turn Sample.subs
           (take 3 Sample.dialogue) 1
           (Set_.questions_asked 2
              (Set_.questions_answered 1
                 (Set_.questions_asked 1
                    (Set_.started_at (Some 100)
                       (Set_.status IN_PROGRESS (new_session 1 7 FINAL))))))).
  - repeat constructor.
  - vm_compute. reflexivity.
Defined.



(** ** The update request *)

Section Update.

Context {dbms : Database}.

Implicit Types (db : DB) (sid : Z) (user : User) (d : VivaSessionUpdate).

Lemma update_twice d (t t' : Z) (s : VivaSession) :
  update_timestamps d t' (update_fields d (update_timestamps d t (update_fields d s)))
  = update_timestamps d t (update_fields d s).
Proof.
  destruct d as [[[| |]|] [v|] [a|] [tr|] [du|]];
    destruct s as [? ? ? ? ? ? ? ? ? ? ? ? ? ? ? [st|] [co|]];
    reflexivity.
Qed.

Lemma update_keeps d (t : Z) (s : VivaSession) :
  let s' := update_timestamps d t (update_fields d s) in
  submission_id s' = submission_id s /\
  student_id s' = student_id s /\
  session_type s' = session_type s /\
  questions_asked s' = questions_asked s /\
  questions_answered s' = questions_answered s /\
  total_score s' = total_score s /\
  max_possible_score s' = max_possible_score s /\
  overall_confidence_score s' = overall_confidence_score s /\
  communication_score s' = communication_score s /\
  technical_accuracy_score s' = technical_accuracy_score s /\
  (is_Some (started_at s) -> started_at s' = started_at s) /\
  (is_Some (completed_at s) -> completed_at s' = completed_at s) /\
  status s' = default (status s) (u_status d).
Proof.
  destruct d as [[[| |]|] [v|] [a|] [tr|] [du|]];
    destruct s as [? ? ? ? ? ? ? ? ? ? ? ? ? ? ? [st|] [co|]];
    simpl; repeat split; try reflexivity;
    intros [x Hx]; discriminate Hx.
Qed.

(** What an update writes. *)
Lemma update_writes d (t : Z) (s : VivaSession) :
  let s' := update_timestamps d t (update_fields d s) in
  video_file_path s' = default (video_file_path s) (u_video_file_path d) /\
  audio_file_path s' = default (audio_file_path s) (u_audio_file_path d) /\
  transcript_file_path s'
  = default (transcript_file_path s) (u_transcript_file_path d) /\
  duration_seconds s' = default (duration_seconds s) (u_duration_seconds d) /\
  (started_at s = None ->
   started_at s' = if decide (u_status d = Some IN_PROGRESS) then Some t else None) /\
  (completed_at s = None ->
   completed_at s' = if decide (u_status d = Some COMPLETED) then Some t else None).
Proof.
  destruct d as [[[| |]|] [v|] [a|] [tr|] [du|]];
    destruct s as [? ? ? ? ? ? ? ? ? ? ? ? ? ? ? [st|] [co|]];
    simpl; repeat split; try reflexivity; discriminate.
Qed.

End Update.

(** X20. Repeating an update changes nothing: after a successful update,
    the same request sent again (at any later time) succeeds with the same
    session and leaves the database as the first one left it. *)
Theorem update_is_idempotent {dbms : Database}
    (sid : Z) (d : VivaSessionUpdate) (user : User) (t t' : Z)
    (db db1 : DB) (s1 : VivaSession) :
  update_viva_session sid d user t db = (db1, Ok s1) ->
  update_viva_session sid d user t' db1 = (db1, Ok s1).
Proof.
  intros H.
  destruct (update_cases sid d user t db)
    as [[e E]|(s & Hs & [Hauth Hint] & E)]; [congruence|].
  rewrite E in H. injection H as <- <-.
  unfold update_viva_session. simpl. rewrite lookup_insert_eq, Hint.
  destruct (update_keeps d t s) as (_ & Hstu & _). simpl in Hstu.
  rewrite Hstu.
  replace (bool_decide (role user = STUDENT)
           && negb (student_id s =? user_id user)) with false.
  - rewrite update_twice. unfold with_sessions. simpl.
    now rewrite insert_insert_eq.
  - symmetry. destruct Hauth as [Hr| ->].
    + apply andb_false_iff. left. now apply bool_decide_eq_false.
    + rewrite Z.eqb_refl. apply andb_false_r.
Qed.

Lemma update_is_idempotent_witness :
  exists db1 s1,
    update_viva_session 1 Sample.reopen Sample.alice 200 Sample.finished
    = (db1, Ok s1) /\
    update_viva_session 1 Sample.reopen Sample.alice 300 db1 = (db1, Ok s1).
Proof.
  destruct (update_cases 1 Sample.reopen Sample.alice 200 Sample.finished)
    as [[e E]|(s0 & _ & _ & E)].
  { exfalso. apply (f_equal snd) in E. vm_compute in E. discriminate E. }
  do 2 eexists. split; [exact E|].
  exact (update_is_idempotent 1 Sample.reopen Sample.alice 200 300
           Sample.finished _ _ E).
Defined.

(** X21. An update writes the session's status, media paths and duration
    as the request gives them (a path or a duration sent as null is
    unset), a start or completion time that was not yet set when the
    status sent asks for it, and nothing else: the response table, the
    submissions, the other sessions, the owner, the submission, the kind
    of session, the counters and all five scores stay as they are, and a
    start or completion time that is already set is never replaced. *)
Theorem update_writes_only_its_fields {dbms : Database}
    (sid : Z) (d : VivaSessionUpdate) (user : User) (t : Z)
    (db db1 : DB) (s s1 : VivaSession) :
  sessions db !! sid = Some s ->
  update_viva_session sid d user t db = (db1, Ok s1) ->
  responses db1 = responses db /\
  submissions db1 = submissions db /\
  sessions db1 !! sid = Some s1 /\
  (forall other, other <> sid -> sessions db1 !! other = sessions db !! other) /\
  student_id s1 = student_id s /\
  submission_id s1 = submission_id s /\
  session_type s1 = session_type s /\
  questions_asked s1 = questions_asked s /\
  questions_answered s1 = questions_answered s /\
  total_score s1 = total_score s /\
  max_possible_score s1 = max_possible_score s /\
  overall_confidence_score s1 = overall_confidence_score s /\
  communication_score s1 = communication_score s /\
  technical_accuracy_score s1 = technical_accuracy_score s /\
  (is_Some (started_at s) -> started_at s1 = started_at s) /\
  (is_Some (completed_at s) -> completed_at s1 = completed_at s) /\
  (started_at s = None ->
   started_at s1 = if decide (u_status d = Some IN_PROGRESS) then Some t else None) /\
  (completed_at s = None ->
   completed_at s1 = if decide (u_status d = Some COMPLETED) then Some t else None) /\
  status s1 = default (status s) (u_status d) /\
  video_file_path s1 = default (video_file_path s) (u_video_file_path d) /\
  audio_file_path s1 = default (audio_file_path s) (u_audio_file_path d) /\
  transcript_file_path s1
  = default (transcript_file_path s) (u_transcript_file_path d) /\
  duration_seconds s1 = default (duration_seconds s) (u_duration_seconds d).
Proof.
  intros Hs Hup.
  destruct (update_cases sid d user t db) as [[e E]|(s0 & Hs0 & _ & E)];
    [congruence|].
  rewrite Hs in Hs0. injection Hs0 as <-.
  rewrite E in Hup. injection Hup as <- <-. simpl.
  destruct (update_keeps d t s)
    as (H1 & H2 & H3 & H4 & H5 & H6 & H7 & H8 & H9 & H10 & H11 & H12 & H13).
  destruct (update_writes d t s) as (W1 & W2 & W3 & W4 & W5 & W6).
  split; [reflexivity|]. split; [reflexivity|].
  split; [apply lookup_insert_eq|].
  split; [intros other Ho; now apply lookup_insert_ne|].
  repeat (split; [assumption|]). assumption.
Qed.

Lemma update_writes_only_its_fields_witness :
  exists s s1 db1,
    sessions Sample.finished !! 1 = Some s /\
    update_viva_session 1 Sample.reopen Sample.alice 200 Sample.finished
    = (db1, Ok s1) /\
    responses db1 = responses Sample.finished /\
    questions_asked s1 = questions_asked s /\
    communication_score s1 = communication_score s /\
    (is_Some (started_at s) -> started_at s1 = started_at s) /\
    status s1 = IN_PROGRESS.
Proof.
  assert (E : is_Some (sessions Sample.finished !! 1)) by (vm_compute; eauto).
  destruct E as [s E].
  destruct (update_cases 1 Sample.reopen Sample.alice 200 Sample.finished)
    as [[e E']|(s0 & Hs0 & _ & E')].
  { exfalso. apply (f_equal snd) in E'. vm_compute in E'. discriminate E'. }
  rewrite E in Hs0. injection Hs0 as <-.
  eexists s, _, _. split; [exact E|]. split; [exact E'|].
  destruct (update_writes_only_its_fields 1 Sample.reopen Sample.alice 200
              Sample.finished _ s _ E E')
    as (H1 & _ & _ & _ & _ & _ & _ & H4 & _ & _ & _ & _ & H9 & _ & H11 & _
        & _ & _ & H13 & _).
  auto.
Defined.

(** X22. Who may update: a request (one that sends no null status)
    succeeds exactly when the session exists, the user is its student or
    is not a student at all (any teacher, whatever assignment the session
    belongs to, or an administrator), and a duration sent fits the
    integer column. *)
Theorem update_authorization {dbms : Database}
    (sid : Z) (d : VivaSessionUpdate) (user : User) (t : Z) (db : DB) :
  error_of (update_viva_session sid d user t db) = None <->
  exists s, sessions db !! sid = Some s /\
            (role user <> STUDENT \/ student_id s = user_id user) /\
            (forall z, u_duration_seconds d = Some (Some z) ->
                       fits_integer z = true).
Proof.
  split.
  - intros Hok.
    destruct (update_cases sid d user t db)
      as [[e E]|(s & Hs & [Hauth Hint] & _)].
    + rewrite E in Hok. discriminate Hok.
    + exists s. split; [exact Hs|]. split; [exact Hauth|].
      intros z Hz. now rewrite Hz in Hint.
  - intros (s & Hs & Hauth & Hint).
    unfold update_viva_session, error_of. rewrite Hs.
    replace (bool_decide (role user = STUDENT)
             && negb (student_id s =? user_id user)) with false.
    + replace (integer_column (u_duration_seconds d)) with true; [reflexivity|].
      symmetry. destruct (u_duration_seconds d) as [[z|]|]; simpl; auto.
    + symmetry. destruct Hauth as [Hr|Hu].
      * apply andb_false_iff. left. now apply bool_decide_eq_false.
      * rewrite Hu, Z.eqb_refl. apply andb_false_r.
Qed.

(** ** Reading sessions *)

Section Reading.

Implicit Types (db : DB) (sid : Z) (user : User) (teachers : gmap Z Z).

Lemma get_ok_iff_listed sid user teachers db (s : VivaSession) :
  get_viva_session sid user teachers db = Ok s <->
  sessions db !! sid = Some s /\ listed_for user teachers db s = true.
Proof.
  unfold get_viva_session, listed_for.
  destruct (sessions db !! sid) as [s0|]; [|split; [discriminate|intros [[=] _]]].
  destruct (role user).
  - destruct (student_id s0 =? user_id user) eqn:E; simpl.
    + split; [intros [= <-]; auto|]. now intros [[= <-] _].
    + split; [discriminate|]. intros [[= <-] H]. congruence.
  - destruct (submissions db !! submission_id s0) eqn:Es;
      destruct (assignment_teacher teachers (submission_id s0)) as [teacher|] eqn:Et;
      try (split; [discriminate|]; intros [[= <-] H];
           rewrite ?Es, ?Et in H; discriminate H).
    destruct (teacher =? user_id user) eqn:E; simpl.
    + split; [intros [= <-]|intros [[= <-] _]]; [|reflexivity].
      rewrite Es, Et. auto.
    + split; [discriminate|]. intros [[= <-] H]. rewrite Es, Et in H. congruence.
  - split; [intros [= <-]; auto|]. now intros [[= <-] _].
Qed.

Lemma list_lookup submission kind user teachers db sid (s : VivaSession) :
  list_viva_sessions submission kind user teachers db !! sid = Some s <->
  sessions db !! sid = Some s /\
  listed_for user teachers db s = true /\
  by_submission submission s = true /\
  by_type kind s = true.
Proof.
  unfold list_viva_sessions. rewrite map_lookup_filter_Some. simpl.
  rewrite !andb_true_iff. tauto.
Qed.

End Reading.

(** X23. The list and the single read agree on who sees what: without
    filters, a session is in the list a user gets exactly when reading it
    by its id succeeds for that user, with the same content: a student
    sees the own sessions, a teacher those whose submission exists and
    belongs to an assignment of that teacher. *)
Theorem listed_iff_readable
    (sid : Z) (user : User) (teachers : gmap Z Z) (db : DB) (s : VivaSession) :
  list_viva_sessions None None user teachers db !! sid = Some s <->
  get_viva_session sid user teachers db = Ok s.
Proof.
  rewrite list_lookup, get_ok_iff_listed. simpl. tauto.
Qed.

(** X24. The filters of the list only narrow it: a session is listed with
    filters exactly when it is listed without and matches them, where a
    submission filter of 0 matches every session (it is not applied). *)
Theorem list_filters_narrow
    (submission : option Z) (kind : option VivaSessionType) (user : User)
    (teachers : gmap Z Z) (db : DB) (sid : Z) (s : VivaSession) :
  list_viva_sessions submission kind user teachers db !! sid = Some s <->
  list_viva_sessions None None user teachers db !! sid = Some s /\
  match submission with
  | Some k => k = 0 \/ submission_id s = k
  | None => True
  end /\
  match kind with
  | Some k => session_type s = k
  | None => True
  end.
Proof.
  rewrite !list_lookup. simpl.
  assert (Hs : by_submission submission s = true <->
               match submission with
               | Some k => k = 0 \/ submission_id s = k
               | None => True
               end).
  { destruct submission as [k|]; simpl; [|tauto].
    destruct (k =? 0) eqn:E.
    - apply Z.eqb_eq in E. tauto.
    - apply Z.eqb_neq in E. rewrite Z.eqb_eq. tauto. }
  assert (Hk : by_type kind s = true <->
               match kind with
               | Some k => session_type s = k
               | None => True
               end).
  { destruct kind as [k|]; simpl; [|tauto]. apply bool_decide_eq_true. }
  tauto.
Qed.

(** X25. A student reads back what was created: after a successful
    create, reading the returned id as the same user succeeds with a
    scheduled session of that student for that submission, with no
    question asked or answered and no score. *)
Theorem created_session_is_readable
    (submission : Z) (kind : VivaSessionType) (user : User)
    (teachers : gmap Z Z) (db db' : DB) (key : Z) :
  create_viva_session submission kind user db = (db', Ok key) ->
  get_viva_session key user teachers db'
  = Ok (new_session submission (user_id user) kind).
Proof.
  intros H.
  destruct (create_cases submission kind user db) as [[e E]|E];
    rewrite E in H; [discriminate H|].
  injection H as <- <-.
  assert (Hr : role user = STUDENT).
  { unfold create_viva_session in E.
    destruct (decide (role user = STUDENT)); [assumption|discriminate E]. }
  unfold get_viva_session. simpl.
  rewrite lookup_insert_eq, Hr. simpl. now rewrite Z.eqb_refl.
Qed.

Lemma created_session_is_readable_witness :
  get_viva_session 1 Sample.alice Fixture.teachers Sample.created
  = Ok (new_session 1 7 FINAL).
Proof.
  apply (created_session_is_readable 1 FINAL Sample.alice Fixture.teachers
           (empty_db Sample.subs) Sample.created 1).
  vm_compute. reflexivity.
Defined.

(** ** Every stored answer has a score *)

Section Scored.

Context {dbms : Database}.

Lemma evaluate_block_scores (u : upstream) :
  d_max_score (evaluate_block u) = Some (JNum 10) /\
  exists v, d_score (evaluate_block u) = Some v /\ v <> JNull.
Proof.
  assert (Hdict : forall kv,
             d_max_score (evaluate_block (Parsed (JDict kv))) = Some (JNum 10) /\
             exists v, d_score (evaluate_block (Parsed (JDict kv))) = Some v /\
                       v <> JNull).
  { intros kv. destruct (evaluate_block_dict kv) as [Es Em].
    split; [exact Em|]. eexists. split; [exact Es|].
    destruct (default (JNum 0) (assoc "overall_score" kv)); simpl; discriminate. }
  destruct u as [e|v].
  - apply (Hdict [("accuracy_score", JNum 0.7%Q);
                  ("completeness_score", JNum 0.7%Q);
                  ("confidence_score", JNum 0.7%Q);
                  ("keywords_matched", JList []);
                  ("overall_score", JNum 0.7%Q);
                  ("feedback",
                   JStr "Response received and recorded. Manual review recommended.");
                  ("strengths", JList [JStr "Attempted to answer the question"]);
                  ("areas_for_improvement", JList [JStr "Could provide more detail"])]).
  - destruct v; try apply Hdict;
      (split; [reflexivity|]; eexists; split; [reflexivity|discriminate]).
Qed.

Lemma flush_scored (u : upstream) (row row' : VivaResponse) :
  flush (evaluate_block u) row = Some row' ->
  max_score row' = Some 10%Q /\ is_Some (score row').
Proof.
  intros Hfl. apply flush_scores in Hfl as [Hs Hm].
  destruct (evaluate_block_scores u) as (Em & v & Es & Hv).
  rewrite Em in Hm. rewrite Es in Hs.
  rewrite (float_column_number _ 10%Q 10%Q) in Hm by (vm_compute; reflexivity).
  split; [congruence|].
  exact (float_column_set _ _ _ Hv Hs).
Qed.

End Scored.

(** X26. No answer is stored without a score: whenever a respond call
    succeeds, whatever the provider replied, the turn it answered is at
    its place in the table with the response text of the request, its
    question and order index unchanged, a score, and [max_score] 10. *)
Theorem answered_turn_is_scored {dbms : Database}
    (sid : Z) (data : VivaResponseCreate) (user : User) (env : Env)
    (db db' : DB) (reply : RespondReply) :
  submit_viva_response sid data user env db = (db', Ok reply) ->
  exists i row row',
    current_response sid db = Some (i, row) /\
    responses db' !! i = Some row' /\
    question_text row' = question_text row /\
    order_index row' = order_index row /\
    response_text row' = c_response_text data /\
    is_Some (score row') /\
    max_score row' = Some 10%Q.
Proof.
  intros H.
  destruct (submit_cases sid data user env db)
    as [[e E]|(s & i & row & row' & _ & _ & _ & _ & Hc & Hf & E)]; [congruence|].
  destruct (current_response_found _ _ _ _ Hc) as (Hi & _ & _).
  apply lookup_lt_Some in Hi.
  destruct (flush_identity _ _ _ Hf) as (_ & _ & Hq & Ho & Ht).
  destruct (flush_scored _ _ _ Hf) as (Hm & Hs).
  exists i, row, row'. split; [exact Hc|].
  split; [|simpl in *; auto].
  destruct E as [(_ & _ & E)|(_ & E)]; rewrite E in H.
  - unfold ask_next in H. injection H as <- _. simpl.
    rewrite lookup_app_l by (now rewrite length_insert).
    now apply list_lookup_insert_eq.
  - destruct (end_session_result sid (counted s) env
                (answered sid (counted s) i row' db)) as (s' & _ & E').
    rewrite E' in H. injection H as <- _. simpl.
    now apply list_lookup_insert_eq.
Qed.

Lemma answered_turn_is_scored_witness :
  exists i row row',
    current_response 1 Sample.started = Some (i, row) /\
    responses Sample.untexted !! i = Some row' /\
    question_text row' = question_text row /\
    order_index row' = order_index row /\
    response_text row' = None /\
    is_Some (score row') /\
    max_score row' = Some 10%Q.
Proof.
  apply (answered_turn_is_scored 1 (Sample.answer None) Sample.alice
           Sample.healthy Sample.started Sample.untexted
           (NextQuestion "Why is the sort stable?" 2)).
  vm_compute. reflexivity.
Defined.

(** ** Floats and refused values *)

Section Refused.

Context {dbms : Database}.

(** The evaluation block assigns the object's confidence score whether or
    not the product of the overall score raises. *)
Lemma evaluate_block_confidence (kv : list (string * json)) :
  d_confidence_score (evaluate_block (Parsed (JDict kv)))
  = Some (default JNull (assoc "confidence_score" kv)).
Proof.
  unfold evaluate_block, try_evaluation, evaluate_viva_response.
  cbn [loads try_except]. rewrite !get_dict. cbn [mbind py_bind Py.bind].
  destruct (times10 _); reflexivity.
Qed.

Lemma flush_refused (w : Dirty) (row : VivaResponse) (x : json) :
  d_confidence_score w = Some x ->
  match x with
  | JNull => False
  | JNum q => finite q = false
  | _ => True
  end ->
  cast_float x = None ->
  flush w row = None.
Proof.
  intros Hw Hx Hcast. unfold flush. rewrite Hw.
  destruct x as [|b|q|s|l|d]; [contradiction| | | | |];
    cbn [float_column]; rewrite ?Hx, Hcast; reflexivity.
Qed.

End Refused.

(** X27. The stored score is a float product, under every database: an
    overall score of 0.7 is stored as exactly 7 and one of 0.8 as exactly
    8, while one of 0.07 is stored as the float next above 0.7, not as
    0.7. *)
Theorem score_is_a_float_product {dbms : Database} (row : VivaResponse) :
  score <$> flush (evaluate_block (Parsed (JDict [("overall_score", JNum 0.7)])))
              row
  = Some (Some 7%Q) /\
  score <$> flush (evaluate_block (Parsed (JDict [("overall_score", JNum 0.8)])))
              row
  = Some (Some 8%Q) /\
  score <$> flush (evaluate_block (Parsed (JDict [("overall_score", JNum 0.07)])))
              row
  = Some (Some (6305039478318695 # 9007199254740992)) /\
  (0.7 < 6305039478318695 # 9007199254740992)%Q.
Proof.
  split; [vm_compute; reflexivity|].
  split; [vm_compute; reflexivity|].
  split; [vm_compute; reflexivity|].
  reflexivity.
Qed.

(** X28. A value the database refuses loses the answer: when the
    evaluation is an object whose confidence score is neither null nor a
    number within the range of the floats, and the database does not cast
    it, the respond call on a pending turn fails with 500 and stores
    nothing, whatever the other entries are; the default score of the
    handler does not apply. *)
Theorem refused_value_fails_the_call {dbms : Database}
    (sid : Z) (data : VivaResponseCreate) (user : User) (env : Env) (db : DB)
    (session : VivaSession) (i : nat) (row : VivaResponse)
    (kv : list (string * json)) (x : json) :
  sessions db !! sid = Some session ->
  status session = IN_PROGRESS ->
  role user = STUDENT ->
  student_id session = user_id user ->
  current_response sid db = Some (i, row) ->
  evaluation env = Parsed (JDict kv) ->
  assoc "confidence_score" kv = Some x ->
  match x with
  | JNull => False
  | JNum q => finite q = false
  | _ => True
  end ->
  cast_float x = None ->
  submit_viva_response sid data user env db
  = (db, Err (HTTP_500_INTERNAL_SERVER_ERROR "Internal Server Error")).
Proof.
  intros Hs Hst Hr Hu Hc He Hx Hkind Hcast.
  unfold submit_viva_response.
  rewrite Hr, Hs, Hu, Hst, Hc, Z.eqb_refl, He.
  rewrite (flush_refused _ _ x); auto.
  rewrite evaluate_block_confidence, Hx. reflexivity.
Qed.

Lemma refused_value_fails_the_call_witness :
  submit_viva_response 1 (Sample.answer (Some "Because.")) Sample.alice
    {| now := 100; generation := Sample.a_question;
       evaluation := Parsed (JDict [("overall_score", JNull);
                                    ("confidence_score", JStr "high")]);
       fault := false |}
    Sample.started
  = (Sample.started, Err (HTTP_500_INTERNAL_SERVER_ERROR "Internal Server Error")).
Proof.
  apply (refused_value_fails_the_call 1 (Sample.answer (Some "Because."))
           Sample.alice _ Sample.started
           (Set_.questions_asked 1
              (Set_.started_at (Some 100)
                 (Set_.status IN_PROGRESS (new_session 1 7 FINAL))))
           0%nat
           (new_response Sample.created 1 "Why is the sort stable?" 1)
           [("overall_score", JNull); ("confidence_score", JStr "high")]
           (JStr "high")).
  - vm_compute. reflexivity.
  - reflexivity.
  - reflexivity.
  - reflexivity.
  - vm_compute. reflexivity.
  - reflexivity.
  - reflexivity.
  - exact I.
  - reflexivity.
Defined.

(** ** Communication and confidence in every state *)

Section Communication.

Context {dbms : Database}.

Implicit Types (db : DB) (rq : request) (rqs : list request).

Lemma communication_insert db db' (k : Z) (s0 : VivaSession) :
  (forall sid s, sessions db !! sid = Some s ->
                 communication_score s = overall_confidence_score s) ->
  sessions db' = <[k := s0]> (sessions db) ->
  communication_score s0 = overall_confidence_score s0 ->
  forall sid s, sessions db' !! sid = Some s ->
                communication_score s = overall_confidence_score s.
Proof.
  intros Hdb Hm H0 sid s Hs. rewrite Hm in Hs.
  destruct (decide (k = sid)) as [->|Hne].
  - rewrite lookup_insert_eq in Hs. now injection Hs as <-.
  - rewrite lookup_insert_ne in Hs by exact Hne. exact (Hdb _ _ Hs).
Qed.

Lemma communication_handle db rq :
  (forall sid s, sessions db !! sid = Some s ->
                 communication_score s = overall_confidence_score s) ->
  forall sid s, sessions (handle db rq) !! sid = Some s ->
                communication_score s = overall_confidence_score s.
Proof.
  intros Hdb.
  destruct rq as [sub kind u|k0 d u t|k0 u env|k0 d u env]; simpl.
  - destruct (create_cases sub kind u db) as [[e ->]|E]; [exact Hdb|rewrite E].
    eapply communication_insert; [exact Hdb|reflexivity|reflexivity].
  - destruct (update_cases k0 d u t db) as [[e ->]|(s0 & Hs0 & _ & ->)];
      [exact Hdb|].
    eapply communication_insert; [exact Hdb|reflexivity|].
    destruct (update_keeps d t s0)
      as (_ & _ & _ & _ & _ & _ & _ & Hconf & Hcomm & _).
    cbn zeta in Hconf, Hcomm. rewrite Hconf, Hcomm. exact (Hdb _ _ Hs0).
  - destruct (start_effect k0 u env db)
      as [->|(s0 & Hs0 & _ & _ & _ & Hm & _)]; [exact Hdb|].
    eapply communication_insert; [exact Hdb|exact Hm|].
    pose proof (Hdb _ _ Hs0) as H0. destruct s0; exact H0.
  - destruct (submit_effect k0 d u env db)
      as [->|(s0 & i & row & row' & s' & tail & Hs0 & _ & _ & _ & _ & _
              & Hm & _ & _ & _ & Hcase)]; [exact Hdb|].
    eapply communication_insert; [exact Hdb|exact Hm|].
    pose proof (Hdb _ _ Hs0) as H0.
    destruct Hcase as [(_ & _ & -> & _)|(_ & _ & Hagg)].
    + destruct s0; exact H0.
    + destruct (session_responses k0 (answered k0 (counted s0) i row' db))
        as [|r rs] eqn:Hrs.
      * cbn in Hagg. injection Hagg as <-. destruct s0; exact H0.
      * destruct (aggregate_nonempty (r :: rs)
                    (Set_.completed_at (Some (now env))
                       (Set_.status COMPLETED (counted s0))))
          as (c & a & _ & _ & Hagg'); [discriminate|].
        rewrite Hagg' in Hagg. injection Hagg as <-.
        destruct s0; reflexivity.
Qed.

Lemma communication_run rqs db :
  (forall sid s, sessions db !! sid = Some s ->
                 communication_score s = overall_confidence_score s) ->
  forall sid s, sessions (run db rqs) !! sid = Some s ->
                communication_score s = overall_confidence_score s.
Proof.
  revert db. induction rqs as [|rq rqs IH]; intros db Hdb; [exact Hdb|].
  simpl. apply IH, communication_handle, Hdb.
Qed.

End Communication.

(** X29. The communication score is never a measurement of its own: in
    every state reached from an empty database by any requests (create,
    update, start, respond, successful or not), every session's
    [communication_score] is its [overall_confidence_score], set or
    unset alike, under every database. *)
Theorem communication_is_confidence_in_every_state {dbms : Database}
    (subs : gmap Z Submission) (rqs : list request)
    (sid : Z) (s : VivaSession) :
  sessions (run (empty_db subs) rqs) !! sid = Some s ->
  communication_score s = overall_confidence_score s.
Proof.
  apply communication_run. intros k s0 Hs0. simpl in Hs0.
  now rewrite lookup_empty in Hs0.
Qed.

Lemma communication_is_confidence_in_every_state_witness :
  exists s,
    sessions
      (run (empty_db Sample.subs)
         [Create 1 FINAL Sample.alice; Start 1 Sample.alice Sample.healthy;
          Respond 1 (Sample.answer (Some "Because.")) Sample.alice Sample.down;
          Update 1 Sample.close Sample.alice 200]) !! 1 = Some s /\
    communication_score s = overall_confidence_score s.
Proof.
  assert (E : is_Some
                (sessions
                   (run (empty_db Sample.subs)
                      [Create 1 FINAL Sample.alice;
                       Start 1 Sample.alice Sample.healthy;
                       Respond 1 (Sample.answer (Some "Because."))
                         Sample.alice Sample.down;
                       Update 1 Sample.close Sample.alice 200]) !! 1))
    by (vm_compute; eauto).
  destruct E as [s E]. exists s. split; [exact E|].
  exact (communication_is_confidence_in_every_state Sample.subs _ 1 s E).
Defined.

(** The sample dialogues assign numbers and strings only: they end in the
    same database whatever the database does with other values. *)
Lemma sample_runs_need_no_cast {dbms : Database} :
  run (empty_db Sample.subs)
    ([Create 1 FINAL Sample.alice; Start 1 Sample.alice Sample.healthy]
     ++ repeat (Respond 1 (Sample.answer (Some "Because.")) Sample.alice
                  Sample.healthy) 5)
  = Sample.finished /\
  run (empty_db Sample.subs)
    ([Create 1 FINAL Sample.alice; Start 1 Sample.alice Sample.healthy;
      Respond 1 (Sample.answer None) Sample.alice Sample.healthy]
     ++ repeat (Respond 1 (Sample.answer (Some "Because.")) Sample.alice
                  Sample.healthy) 4
     ++ [Update 1 Sample.reopen Sample.alice 200;
         Respond 1 (Sample.answer (Some "Again.")) Sample.alice Sample.down])
  = Sample.reanswered /\
  run (empty_db Sample.subs)
    [Create 1 FINAL Sample.alice; Start 1 Sample.alice Sample.healthy;
     Update 1 Sample.close Sample.alice 200]
  = Sample.closed /\
  run (empty_db Sample.subs)
    [Create 1 FINAL Sample.alice; Start 1 Sample.alice Sample.healthy;
     Respond 1 (Sample.answer (Some "Because.")) Sample.alice Sample.careless]
  = run Sample.started
      [Respond 1 (Sample.answer (Some "Because.")) Sample.alice Sample.careless].
Proof.
  split; [vm_compute; reflexivity|].
  split; [vm_compute; reflexivity|].
  split; vm_compute; reflexivity.
Qed.
